(** * National Parks data collector: a shallow embedding of
      [nps_parks_collector.py] and the properties of its pipeline.

    The script is a linear pipeline
    (authenticate, fetch, parse, build a table, write the sheet).
    Everything it does to the outside world goes through four libraries
    (google.colab / google.auth, gspread, requests, pandas); their answers
    are the fields of an environment record, their calls are events of a
    trace, and Python exceptions are an explicit outcome. *)

From Stdlib Require Import ZArith String Ascii List DecimalString Lia.
From Stdlib Require Import Floats.SpecFloat.
From stdpp Require Import gmap strings list fin_maps.

Set Warnings "-register-all".
Local Open Scope string_scope.
Local Open Scope Z_scope.

(** ** Python values *)

(** What [response.json()] can hand back, and what a cell of the table can
    hold.  A JSON object is a finite map from its keys; the script only
    reads objects with [in], [get] and [[]], so key order plays no role. *)
Inductive pyval : Type :=
| PNone
| PBool (b : bool)
| PInt (z : Z)
| PFloat (f : spec_float)
| PStr (s : string)
| PList (l : list pyval)
| PDict (d : gmap string pyval).

(** [bool(v)] *)
Definition truthy (v : pyval) : bool :=
  match v with
  | PNone => false
  | PBool b => b
  | PInt z => negb (Z.eqb z 0)
  | PFloat (S754_zero _) => false
  | PFloat _ => true
  | PStr EmptyString => false
  | PStr _ => true
  | PList [] => false
  | PList _ => true
  | PDict d => negb (Nat.eqb (size d) 0)
  end.

(** [type(v).__name__], as it appears in the interpreter's messages *)
Definition type_name (v : pyval) : string :=
  match v with
  | PNone => "NoneType"
  | PBool _ => "bool"
  | PInt _ => "int"
  | PFloat _ => "float"
  | PStr _ => "str"
  | PList _ => "list"
  | PDict _ => "dict"
  end.

Definition str_of_nat (n : nat) : string := NilZero.string_of_uint (Nat.to_uint n).
Definition str_of_Z (z : Z) : string := NilZero.string_of_int (Z.to_int z).

(** ["=" * 60] *)
Fixpoint str_times (s : string) (n : nat) : string :=
  match n with
  | O => EmptyString
  | S n' => s +:+ str_times s n'
  end.

Definition newline : string := String "010"%char EmptyString.

(** [needle in haystack] on two [str] *)
Fixpoint is_substring (needle haystack : string) : bool :=
  String.prefix needle haystack
  || match haystack with
     | EmptyString => false
     | String _ rest => is_substring needle rest
     end.

(** ** Exceptions *)

(** The classes that the script's [except] clauses tell apart, with the
    classes its libraries raise.  [RequestsJSONDecodeError] is
    [requests.exceptions.JSONDecodeError] (requests 2.27 and later), which
    derives from both [RequestException] and [json.JSONDecodeError]. *)
Inductive exn_class : Type :=
| BaseException
| KeyboardInterrupt
| Exception
| TypeError
| AttributeError
| KeyError
| ValueError
| JSONDecodeError
| OSError
| RequestException
| HTTPError
| ConnectionError
| Timeout
| RequestsJSONDecodeError
| GoogleAuthError
| DefaultCredentialsError
| GSpreadException
| APIError
| SpreadsheetNotFound
| NoValidUrlKeyFound
| WorksheetNotFound.

#[global] Instance exn_class_eq_dec : EqDecision exn_class.
Proof. solve_decision. Defined.

(** Strict ancestors of a class. *)
Definition bases (c : exn_class) : list exn_class :=
  match c with
  | BaseException => []
  | KeyboardInterrupt => [BaseException]
  | Exception => [BaseException]
  | TypeError | AttributeError | KeyError | ValueError | OSError
  | GoogleAuthError | GSpreadException => [Exception; BaseException]
  | JSONDecodeError => [ValueError; Exception; BaseException]
  | RequestException => [OSError; Exception; BaseException]
  | HTTPError | ConnectionError | Timeout =>
      [RequestException; OSError; Exception; BaseException]
  | RequestsJSONDecodeError =>
      [RequestException; OSError; JSONDecodeError; ValueError; Exception; BaseException]
  | DefaultCredentialsError => [GoogleAuthError; Exception; BaseException]
  | APIError | SpreadsheetNotFound | NoValidUrlKeyFound | WorksheetNotFound =>
      [GSpreadException; Exception; BaseException]
  end.

Record exn : Type := mkExn { exn_cls : exn_class; exn_msg : string }.

(** [isinstance(e, cls)], which is what [except cls] tests *)
Definition isinstance (e : exn) (cls : exn_class) : bool :=
  bool_decide (exn_cls e = cls) || bool_decide (cls ∈ bases (exn_cls e)).

(** ** Outcomes, events and the world *)

Inductive outcome (A : Type) : Type :=
| Ret (a : A)
| Raise (e : exn).
Arguments Ret {A} a.
Arguments Raise {A} e.

(** One row of the grid is a list of cells. *)
Abbreviation grid := (list (list pyval)).

Inductive event : Type :=
| Print (line : string)
| AuthenticateUser
| DefaultCredentials
| Authorize
| HttpGet (url : string) (params : list (string * pyval))
| OpenByUrl (url : string)
| GetWorksheet (index : Z)
| Clear
| Update (values : grid).

Definition is_print (ev : event) : bool :=
  match ev with Print _ => true | _ => false end.

Definition is_auth_event (ev : event) : bool :=
  match ev with AuthenticateUser | DefaultCredentials | Authorize => true | _ => false end.

Definition is_network_event (ev : event) : bool :=
  match ev with HttpGet _ _ => true | _ => false end.

(** The calls on the spreadsheet service. *)
Definition is_sink_event (ev : event) : bool :=
  match ev with OpenByUrl _ | GetWorksheet _ | Clear | Update _ => true | _ => false end.

(** The cells of the first worksheet of the target spreadsheet, by
    (row, column). *)
Abbreviation cells := (gmap (nat * nat) pyval).

Record world : Type := mkWorld { trace : list event; sheet : cells }.

(** Opaque handles of the libraries. *)
Record credentials : Type := mkCredentials { cred_id : nat }.
Record client : Type := mkClient { client_auth : credentials }.
Record spreadsheet : Type := mkSpreadsheet { spreadsheet_url : string }.
Record worksheet : Type := mkWorksheet { worksheet_index : Z }.

(** A [requests.Response]: its status line and what [.json()] gives. *)
Record response : Type := mkResponse {
  status_code : Z;
  reason : string;
  response_url : string;
  json : exn + pyval
}.

(** What the outside world answers to each call of one run.  Each call is
    made at most once per run. *)
Record env : Type := mkEnv {
  colab_authenticate_user : option exn;
  google_auth_default : exn + credentials;
  gspread_authorize : option exn;
  requests_get : exn + response;
  client_open_by_url : option exn;
  spreadsheet_get_worksheet : exn + option worksheet;
  worksheet_clear : option exn;
  worksheet_update : option exn
}.

(** The two values the user pastes at the top of the script. *)
Record config : Type := mkConfig { API_KEY : string; SHEET_URL : string }.

(** ** The monad of the script: state and exceptions *)

Definition M (A : Type) : Type := world -> outcome A * world.

Definition ret {A} (a : A) : M A := fun w => (Ret a, w).

Definition raise {A} (e : exn) : M A := fun w => (Raise e, w).

Definition bind {A B} (m : M A) (k : A -> M B) : M B :=
  fun w =>
    match m w with
    | (Ret a, w') => k a w'
    | (Raise e, w') => (Raise e, w')
    end.

(** [try: body except cls as e: handler e] *)
Definition try_except {A} (body : M A) (cls : exn_class) (handler : exn -> M A) : M A :=
  fun w =>
    match body w with
    | (Ret a, w') => (Ret a, w')
    | (Raise e, w') => if isinstance e cls then handler e w' else (Raise e, w')
    end.

Definition lift {A} (o : outcome A) : M A := fun w => (o, w).

Definition emit (ev : event) : M unit :=
  fun w => (Ret tt, mkWorld (trace w ++ [ev]) (sheet w)).

Definition print (line : string) : M unit := emit (Print line).

Definition set_sheet (c : cells) : M unit :=
  fun w => (Ret tt, mkWorld (trace w) c).

Definition get_sheet : M cells := fun w => (Ret (sheet w), w).

Declare Scope py_scope.
Delimit Scope py_scope with py.
Notation "x <~ m ; k" := (bind m (fun x => k))
  (at level 100, m at next level, right associativity) : py_scope.
Notation "m >> k" := (bind m (fun _ => k))
  (at level 100, right associativity) : py_scope.
Local Open Scope py_scope.

(** Run a computation from an empty trace and the given sheet. *)
Definition run {A} (m : M A) (c0 : cells) : outcome A * world := m (mkWorld [] c0).

Definition result {A} (r : outcome A * world) : outcome A := fst r.
Definition events {A} (r : outcome A * world) : list event := trace (snd r).
Definition final_sheet {A} (r : outcome A * world) : cells := sheet (snd r).

(** ** The libraries the script calls *)

(** A call on the outside world: it is recorded, then answers or raises.
    A call that raises has had no effect on the sheet. *)
Definition call {A} (ev : event) (answer : exn + A) : M A :=
  emit ev >>
  match answer with
  | inl e => raise e
  | inr a => ret a
  end.

Definition failure_or {A} (a : A) (o : option exn) : exn + A :=
  match o with
  | Some e => inl e
  | None => inr a
  end.

(** [Response.raise_for_status()] of requests: an [HTTPError] for the
    statuses 400 to 599, nothing for any other status. *)
Definition raise_for_status (r : response) : M unit :=
  if (400 <=? status_code r) && (status_code r <? 500) then
    raise (mkExn HTTPError
             (str_of_Z (status_code r) +:+ " Client Error: " +:+ reason r
              +:+ " for url: " +:+ response_url r))
  else if (500 <=? status_code r) && (status_code r <? 600) then
    raise (mkExn HTTPError
             (str_of_Z (status_code r) +:+ " Server Error: " +:+ reason r
              +:+ " for url: " +:+ response_url r))
  else ret tt.

(** [item in container], for a [str] item *)
Definition py_contains (item : string) (container : pyval) : outcome bool :=
  match container with
  | PDict d => Ret (bool_decide (is_Some (d !! item)))
  | PList l =>
      Ret (existsb (fun v => match v with PStr s => String.eqb s item | _ => false end) l)
  | PStr s => Ret (is_substring item s)
  | v => Raise (mkExn TypeError
                  ("argument of type '" +:+ type_name v +:+ "' is not iterable"))
  end.

(** [container[key]], for a [str] key *)
Definition py_getitem (container : pyval) (key : string) : outcome pyval :=
  match container with
  | PDict d =>
      match d !! key with
      | Some v => Ret v
      | None => Raise (mkExn KeyError ("'" +:+ key +:+ "'"))
      end
  | PList _ => Raise (mkExn TypeError "list indices must be integers or slices, not str")
  | PStr _ => Raise (mkExn TypeError "string indices must be integers, not 'str'")
  | v => Raise (mkExn TypeError ("'" +:+ type_name v +:+ "' object is not subscriptable"))
  end.

(** The items a [for] loop over the value visits.  For a dict these are
    its keys; the script fails on the first of them whatever their order. *)
Definition py_iter (v : pyval) : outcome (list pyval) :=
  match v with
  | PList l => Ret l
  | PDict d => Ret (map (fun kv => PStr (fst kv)) (map_to_list d))
  | PStr s => Ret (map (fun c => PStr (String c EmptyString)) (list_ascii_of_string s))
  | v => Raise (mkExn TypeError ("'" +:+ type_name v +:+ "' object is not iterable"))
  end.

(** [obj.get(key, default)]: only a [dict] has the method. *)
Definition py_get (obj : pyval) (key : string) (dflt : pyval) : outcome pyval :=
  match obj with
  | PDict d => Ret (default dflt (d !! key))
  | v => Raise (mkExn AttributeError
                  ("'" +:+ type_name v +:+ "' object has no attribute 'get'"))
  end.

(** The dict literal built for each park keeps its keys in the order they
    are written. *)
Abbreviation park_record := (list (string * pyval)).

Definition record_get (r : park_record) (key : string) : option pyval :=
  snd <$> List.find (fun kv => String.eqb (fst kv) key) r.

(** [list(r.values())] *)
Definition record_values (r : park_record) : list pyval := map snd r.

(** [list(r.keys())] *)
Definition record_keys (r : park_record) : list string := map fst r.

(** *** pandas *)

(** A frame: its column labels and, row by row, the objects it was built
    from.  Its length is the number of its rows. *)
Record DataFrame : Type := mkDataFrame {
  df_columns : list string;
  df_rows : grid
}.

Definition NaN : pyval := PFloat S754_nan.

Definition add_key (acc : list string) (key : string) : list string :=
  if bool_decide (key ∈ acc) then acc else acc ++ [key].

(** The columns of a frame built from a list of dicts: the keys, in the
    order in which they are first met. *)
Definition frame_columns (records : list park_record) : list string :=
  fold_left add_key (concat (map record_keys records)) [].

(** One row per dict; a key the dict lacks gives NaN. *)
Definition frame_rows (records : list park_record) (columns : list string) : grid :=
  map (fun r => map (fun key => default NaN (record_get r key)) columns) records.

(** [pd.DataFrame(records)] for a list of dicts *)
Definition pd_DataFrame (records : list park_record) : DataFrame :=
  let columns := frame_columns records in
  mkDataFrame columns (frame_rows records columns).

(** Writing a grid from cell A1 on. *)
Fixpoint write_row (i j : nat) (row : list pyval) (c : cells) : cells :=
  match row with
  | [] => c
  | v :: rest => write_row i (S j) rest (<[(i, j) := v]> c)
  end.

Fixpoint write_rows (i : nat) (g : grid) (c : cells) : cells :=
  match g with
  | [] => c
  | row :: rest => write_rows (S i) rest (write_row i 0 row c)
  end.

(** ** The script *)

Section Collector.

(** The answers of the outside world during the run. *)
Variable E : env.

(** [API_KEY] and [SHEET_URL] as pasted by the user. *)
Variable cfg : config.

(** What pandas and numpy make of the objects a frame was built from when
    they are read back with [df.values.tolist()] (dtype inference,
    upcasting). *)
Variable to_cells : grid -> grid.

(** [df.values.tolist()] *)
Definition values_tolist (df : DataFrame) : grid := to_cells (df_rows df).

(** [df.columns.values.tolist()] *)
Definition columns_tolist (df : DataFrame) : list pyval := map PStr (df_columns df).

Definition authenticate_google : M client :=
  print "🔐 Authenticating with Google..." >>
  call AuthenticateUser (failure_or tt (colab_authenticate_user E)) >>
  creds <~ call DefaultCredentials (google_auth_default E);
  gc <~ call Authorize (failure_or (mkClient creds) (gspread_authorize E));
  print "✅ Google authentication successful!" >>
  ret gc.

Definition fetch_parks_data (api_key : string) (limit : Z) : M pyval :=
  print ("📡 Fetching up to " +:+ str_of_Z limit +:+ " parks from NPS API...") >>
  let url := "https://developer.nps.gov/api/v1/parks" in
  let params := [("api_key", PStr api_key); ("limit", PInt limit)] in
  try_except
    (response <~ call (HttpGet url params) (requests_get E);
     raise_for_status response >>
     print "✅ API request successful!" >>
     lift (match json response with inl e => Raise e | inr v => Ret v end))
    RequestException
    (fun e =>
       print ("❌ Error fetching data from NPS API: " +:+ exn_msg e) >>
       ret PNone).

Definition NA : pyval := PStr "N/A".

(** The dict literal of the loop body. *)
Definition park_info (park : pyval) : outcome park_record :=
  match py_get park "fullName" NA with
  | Raise e => Raise e
  | Ret fullName =>
  match py_get park "states" NA with
  | Raise e => Raise e
  | Ret states =>
  match py_get park "description" NA with
  | Raise e => Raise e
  | Ret description =>
  match py_get park "acres" NA with
  | Raise e => Raise e
  | Ret acres =>
  match py_get park "designation" NA with
  | Raise e => Raise e
  | Ret designation =>
      Ret [("fullName", fullName);
           ("states", states);
           ("description", description);
           ("acres", acres);
           ("designation", designation)]
  end end end end end.

(** [for park in parks_data: ... parks_list.append(park_info)] *)
Fixpoint parse_loop (parks_data : list pyval) (parks_list : list park_record)
  : outcome (list park_record) :=
  match parks_data with
  | [] => Ret parks_list
  | park :: rest =>
      match park_info park with
      | Raise e => Raise e
      | Ret info => parse_loop rest (parks_list ++ [info])
      end
  end.

Definition parse_parks_data (api_response : pyval) : M (option (list park_record)) :=
  print "📊 Parsing park data..." >>
  no_data <~ (if negb (truthy api_response) then ret true
              else has <~ lift (py_contains "data" api_response); ret (negb has));
  if no_data then
    print "❌ No data found in API response" >>
    ret None
  else
    parks_data <~ lift (py_getitem api_response "data");
    items <~ lift (py_iter parks_data);
    parks_list <~ lift (parse_loop items []);
    print ("✅ Parsed " +:+ str_of_nat (length parks_list) +:+ " parks successfully!") >>
    ret (Some parks_list).

(** [bool(parks_list)] for what [parse_parks_data] returns *)
Definition truthy_parks (parks_list : option (list park_record)) : bool :=
  match parks_list with
  | None => false
  | Some [] => false
  | Some (_ :: _) => true
  end.

Definition create_dataframe (parks_list : option (list park_record))
  : M (option DataFrame) :=
  print "📋 Creating DataFrame..." >>
  match parks_list with
  | Some (p :: ps) =>
      let df := pd_DataFrame (p :: ps) in
      print ("✅ DataFrame created with " +:+ str_of_nat (length (df_rows df))
             +:+ " rows and " +:+ str_of_nat (length (df_columns df)) +:+ " columns") >>
      ret (Some df)
  | _ =>
      print "❌ No parks data to create DataFrame" >>
      ret None
  end.

(** The argument of [worksheet.update]. *)
Definition sheet_grid (df : DataFrame) : grid :=
  [columns_tolist df] ++ values_tolist df.

Definition clear_worksheet (ws : option worksheet) : M unit :=
  match ws with
  | None => raise (mkExn AttributeError "'NoneType' object has no attribute 'clear'")
  | Some _ =>
      call Clear (failure_or tt (worksheet_clear E)) >>
      set_sheet ∅
  end.

Definition update_worksheet (ws : option worksheet) (values : grid) : M unit :=
  match ws with
  | None => raise (mkExn AttributeError "'NoneType' object has no attribute 'update'")
  | Some _ =>
      call (Update values) (failure_or tt (worksheet_update E)) >>
      c <~ get_sheet;
      set_sheet (write_rows 0 values c)
  end.

Definition write_to_google_sheet (gc : client) (sheet_url : string) (df : DataFrame)
  : M bool :=
  print "📝 Writing data to Google Sheet..." >>
  try_except
    (sheet <~ call (OpenByUrl sheet_url)
                   (failure_or (mkSpreadsheet sheet_url) (client_open_by_url E));
     worksheet <~ call (GetWorksheet 0) (spreadsheet_get_worksheet E);
     clear_worksheet worksheet >>
     update_worksheet worksheet (sheet_grid df) >>
     print ("✅ Successfully wrote " +:+ str_of_nat (length (df_rows df))
            +:+ " parks to Google Sheet!") >>
     print ("🔗 View your data: " +:+ sheet_url) >>
     ret true)
    Exception
    (fun e =>
       print ("❌ Error writing to Google Sheet: " +:+ exn_msg e) >>
       ret false).

(** A [gspread.Client] has neither [__bool__] nor [__len__]. *)
Definition truthy_client (gc : client) : bool := true.

Definition banner : string := str_times "=" 60.

Definition main : M unit :=
  print banner >>
  print "National Parks Data Collector" >>
  print banner >>
  if String.eqb (API_KEY cfg) "YOUR_API_KEY_HERE" then
    print "❌ ERROR: Please paste your NPS API key in the API_KEY variable"
  else if String.eqb (SHEET_URL cfg) "YOUR_GOOGLE_SHEET_URL_HERE" then
    print "❌ ERROR: Please paste your Google Sheet URL in the SHEET_URL variable"
  else
    gc <~ authenticate_google;
    if negb (truthy_client gc) then ret tt else
    api_response <~ fetch_parks_data (API_KEY cfg) 50;
    if negb (truthy api_response) then ret tt else
    parks_list <~ parse_parks_data api_response;
    if negb (truthy_parks parks_list) then ret tt else
    df <~ create_dataframe parks_list;
    match df with
    | None => ret tt
    | Some df =>
        success <~ write_to_google_sheet gc (SHEET_URL cfg) df;
        if success then
          print (newline +:+ banner) >>
          print "✅ ALL DONE! Your National Parks data is now in Google Sheets!" >>
          print banner
        else
          print (newline +:+ banner) >>
          print "❌ Process completed with errors. Please check the messages above." >>
          print banner
    end.

End Collector.

(** ** Vocabulary of the properties *)

(** The five fields of a park record, in the order of the dict literal. *)
Definition park_fields : list string :=
  ["fullName"; "states"; "description"; "acres"; "designation"].

(** The record that the loop body builds from a JSON object. *)
Definition normalized (source : gmap string pyval) : park_record :=
  map (fun key => (key, default (PStr "N/A") (source !! key))) park_fields.

Definition no_sink_call (t : list event) : Prop :=
  Forall (fun ev => is_sink_event ev = false) t.

(** The two scenarios of the specification. *)
Definition yellowstone : gmap string pyval :=
  {[ "fullName" := PStr "Yellowstone";
     "states" := PStr "ID,MT,WY";
     "description" := PStr "...";
     "acres" := PInt 2219791;
     "designation" := PStr "National Park" ]}.

Definition yellowstone_response : pyval :=
  PDict {[ "data" := PList [PDict yellowstone] ]}.

Definition test_park_response : pyval :=
  PDict {[ "data" := PList [PDict {[ "fullName" := PStr "Test Park" ]}] ]}.

(** The response carries no park data: it is falsy ([None], an empty
    object, ...) or it is a JSON object without the ["data"] key. *)
Definition no_data (api_response : pyval) : Prop :=
  truthy api_response = false
  \/ exists d : gmap string pyval, api_response = PDict d /\ d !! "data" = None.


(** The first exception raised by the calls of the sink stage, in the
    order in which the stage makes them. *)
Definition sink_failure (E : env) : option exn :=
  match client_open_by_url E with
  | Some e => Some e
  | None =>
      match spreadsheet_get_worksheet E with
      | inl e => Some e
      | inr None => Some (mkExn AttributeError "'NoneType' object has no attribute 'clear'")
      | inr (Some _) =>
          match worksheet_clear E with
          | Some e => Some e
          | None => worksheet_update E
          end
      end
  end.

(** A value the computation can return. *)
Definition returns {A} (m : M A) (a : A) : Prop := exists w, fst (m w) = Ret a.

(** The first action of the table stage. *)
Definition is_table_event (ev : event) : bool :=
  match ev with
  | Print line => String.eqb line "📋 Creating DataFrame..."
  | _ => false
  end.

(** The events of the stages that come after parsing. *)
Definition past_parsing (ev : event) : bool := is_table_event ev || is_sink_event ev.

Definition no_table_or_sink_call (t : list event) : Prop :=
  Forall (fun ev => past_parsing ev = false) t.

(** The computation enters neither the table stage nor the sink stage,
    and leaves the sheet as it is. *)
Definition quiet {A} (m : M A) : Prop :=
  forall w, no_table_or_sink_call (trace w) ->
            no_table_or_sink_call (trace (snd (m w))) /\ sheet (snd (m w)) = sheet w.

(** Sample surroundings of a run. *)
Definition configured : config :=
  mkConfig "demo-key" "https://docs.google.com/spreadsheets/d/demo".

Definition ok_response (body : pyval) : response :=
  mkResponse 200 "OK" "https://developer.nps.gov/api/v1/parks?api_key=demo-key&limit=50"
             (inr body).

(** Every call succeeds and the API answers with [body]. *)
Definition serving (body : pyval) : env :=
  mkEnv None (inr (mkCredentials 1)) None (inr (ok_response body))
        None (inr (Some (mkWorksheet 0))) None None.

(** The identity provider turns the user down. *)
Definition auth_refused : env :=
  mkEnv (Some (mkExn Exception "credential propagation was unsuccessful"))
        (inr (mkCredentials 1)) None (inr (ok_response yellowstone_response))
        None (inr (Some (mkWorksheet 0))) None None.

(** The API answers 300 Multiple Choices with a JSON body. *)
Definition multiple_choices : response :=
  mkResponse 300 "Multiple Choices"
             "https://developer.nps.gov/api/v1/parks?api_key=demo-key&limit=50"
             (inr yellowstone_response).

Definition redirecting : env :=
  mkEnv None (inr (mkCredentials 1)) None (inr multiple_choices)
        None (inr (Some (mkWorksheet 0))) None None.


(** The sheet is cleared and then the update is refused. *)
Definition update_refused : env :=
  mkEnv None (inr (mkCredentials 1)) None (inr (ok_response yellowstone_response))
        None (inr (Some (mkWorksheet 0))) None
        (Some (mkExn APIError "quota exceeded")).

(** The locator does not name a spreadsheet. *)
Definition bad_locator : env :=
  mkEnv None (inr (mkCredentials 1)) None (inr (ok_response yellowstone_response))
        (Some (mkExn NoValidUrlKeyFound "No valid key found in URL"))
        (inr (Some (mkWorksheet 0))) None None.

(** The first exception raised by the calls of the authentication stage,
    in the order in which the stage makes them. *)
Definition auth_failure (E : env) : option exn :=
  match colab_authenticate_user E with
  | Some e => Some e
  | None =>
      match google_auth_default E with
      | inl e => Some e
      | inr _ => gspread_authorize E
      end
  end.

(** Both values of the configuration have been filled in. *)
Definition filled_in (cfg : config) : Prop :=
  API_KEY cfg <> "YOUR_API_KEY_HERE" /\ SHEET_URL cfg <> "YOUR_GOOGLE_SHEET_URL_HERE".

(** The one request the fetch stage makes. *)
Definition parks_request (api_key : string) (limit : Z) : event :=
  HttpGet "https://developer.nps.gov/api/v1/parks"
          [("api_key", PStr api_key); ("limit", PInt limit)].

(** The cell of a grid at a row and a column, when it has one. *)
Definition grid_cell (g : grid) (i j : nat) : option pyval :=
  match g !! i with
  | Some row => row !! j
  | None => None
  end.

(** The computation adds no event of the kind [P] to the trace. *)
Definition silent (P : event -> bool) {A} (m : M A) : Prop :=
  forall w, List.filter P (trace (snd (m w))) = List.filter P (trace w).

(** The status is one that [raise_for_status] lets through. *)
Definition status_passes (r : response) : Prop := ~ (400 <= status_code r < 600).

(** Authentication succeeds and the API answers with an object whose
    ["data"] holds these JSON objects. *)
Definition delivers (E : env) (creds : credentials) (sources : list (gmap string pyval)) : Prop :=
  colab_authenticate_user E = None
  /\ google_auth_default E = inr creds
  /\ gspread_authorize E = None
  /\ exists r d, requests_get E = inr r /\ status_passes r
                 /\ json r = inr (PDict d)
                 /\ d !! "data" = Some (PList (map PDict sources)).

(** Every call of the sink stage succeeds. *)
Definition sink_accepts (E : env) : Prop :=
  client_open_by_url E = None
  /\ (exists ws, spreadsheet_get_worksheet E = inr (Some ws))
  /\ worksheet_clear E = None
  /\ worksheet_update E = None.

(** The two calls that change the content of the sheet. *)
Definition changes_sheet (ev : event) : bool :=
  match ev with
  | Clear | Update _ => true
  | _ => false
  end.

(** The API answers 200 with a body that is not JSON, and the decoder
    raises the [ValueError] of the [json] module. *)
Definition undecodable : env :=
  mkEnv None (inr (mkCredentials 1)) None
        (inr (mkResponse 200 "OK" "https://developer.nps.gov/api/v1/parks"
                         (inl (mkExn JSONDecodeError
                                     "Expecting value: line 1 column 1 (char 0)"))))
        None (inr (Some (mkWorksheet 0))) None None.

(** No default credentials are found. *)
Definition no_credentials : env :=
  mkEnv None
        (inl (mkExn DefaultCredentialsError
                    "Your default credentials were not found."))
        None (inr (ok_response yellowstone_response))
        None (inr (Some (mkWorksheet 0))) None None.

(** The JSON values that are neither containers nor strings. *)
Definition is_scalar (v : pyval) : bool :=
  match v with
  | PNone | PBool _ | PInt _ | PFloat _ => true
  | _ => false
  end.

Definition is_dict (v : pyval) : bool :=
  match v with
  | PDict _ => true
  | _ => false
  end.

(** The last lines of [main], after the sink stage. *)
Definition closing (success : bool) : M unit :=
  (if success then
     print (newline +:+ banner) >>
     print "✅ ALL DONE! Your National Parks data is now in Google Sheets!" >>
     print banner
   else
     print (newline +:+ banner) >>
     print "❌ Process completed with errors. Please check the messages above." >>
     print banner)%py.

(** What a run has printed and called when it enters the sink stage with
    [n] records. *)
Definition before_sink (cfg : config) (n : nat) : list event :=
  [Print banner; Print "National Parks Data Collector"; Print banner;
   Print "🔐 Authenticating with Google...";
   AuthenticateUser; DefaultCredentials; Authorize;
   Print "✅ Google authentication successful!";
   Print ("📡 Fetching up to " +:+ str_of_Z 50 +:+ " parks from NPS API...");
   parks_request (API_KEY cfg) 50;
   Print "✅ API request successful!";
   Print "📊 Parsing park data...";
   Print ("✅ Parsed " +:+ str_of_nat n +:+ " parks successfully!");
   Print "📋 Creating DataFrame...";
   Print ("✅ DataFrame created with " +:+ str_of_nat n
          +:+ " rows and " +:+ str_of_nat 5 +:+ " columns")].

(** The grid of a run that parsed these JSON objects. *)
Definition parks_grid (to_cells : grid -> grid) (sources : list (gmap string pyval)) : grid :=
  map PStr park_fields :: to_cells (map (fun source => record_values (normalized source)) sources).

(** The API answers with one park and the update of the sheet is
    refused. *)
Definition serving_unwritable : env :=
  mkEnv None (inr (mkCredentials 1)) None
        (inr (ok_response (PDict {[ "data" := PList (map PDict [yellowstone]) ]})))
        None (inr (Some (mkWorksheet 0))) None
        (Some (mkExn APIError "quota exceeded")).

(** The message of [create_dataframe] for a list without parks. *)
Definition is_empty_table_message (ev : event) : bool :=
  match ev with
  | Print line => String.eqb line "❌ No parks data to create DataFrame"
  | _ => false
  end.

(** The read-back converts every cell on its own: the cell of column [j]
    that holds [v] comes back as [cell j v], at the same row and column. *)
Definition cellwise (to_cells : grid -> grid) (cell : nat -> pyval -> pyval) : Prop :=
  forall m : grid, to_cells m = map (imap cell) m.

(** ** Basic facts *)

Lemma dict_with_key_truthy (d : gmap string pyval) (key : string) (v : pyval) :
  d !! key = Some v -> truthy (PDict d) = true.
Proof.
  intros Hk. simpl. destruct (size d) eqn:Hsize; [|reflexivity].
  apply map_size_empty_iff in Hsize. subst d.
  rewrite lookup_empty in Hk. discriminate.
Qed.

Lemma park_info_dict (d : gmap string pyval) : park_info (PDict d) = Ret (normalized d).
Proof. reflexivity. Qed.

Lemma parse_loop_dicts (sources : list (gmap string pyval)) (acc : list park_record) :
  parse_loop (map PDict sources) acc = Ret (acc ++ map normalized sources)%list.
Proof.
  revert acc. induction sources as [|d sources IH]; intros acc; cbn [map parse_loop].
  - by rewrite app_nil_r.
  - rewrite park_info_dict, IH, <- app_assoc. reflexivity.
Qed.

(** What the parser does once the response is a JSON object that has the
    ["data"] key: the outcome is that of the loop. *)
Lemma parse_parks_data_with_data (d : gmap string pyval) (data : pyval) (c0 : cells) :
  d !! "data" = Some data ->
  run (parse_parks_data (PDict d)) c0 =
  match py_iter data with
  | Raise e => (Raise e, mkWorld [Print "📊 Parsing park data..."] c0)
  | Ret items =>
      match parse_loop items [] with
      | Raise e => (Raise e, mkWorld [Print "📊 Parsing park data..."] c0)
      | Ret parks =>
          (Ret (Some parks),
           mkWorld [Print "📊 Parsing park data...";
                    Print ("✅ Parsed " +:+ str_of_nat (length parks)
                           +:+ " parks successfully!")] c0)
      end
  end.
Proof.
  intros Hd.
  unfold run, parse_parks_data, bind, print, emit, lift, ret, py_contains, py_getitem.
  cbn [trace sheet app].
  rewrite (dict_with_key_truthy d "data" data Hd), Hd. cbn [negb].
  rewrite bool_decide_eq_true_2 by eauto. cbn [negb].
  destruct (py_iter data) as [items|e]; [|reflexivity].
  destruct (parse_loop items []) as [parks|e]; reflexivity.
Qed.

Lemma parse_loop_keys (items : list pyval) (acc parks : list park_record) :
  parse_loop items acc = Ret parks ->
  Forall (fun r => record_keys r = park_fields) acc ->
  Forall (fun r => record_keys r = park_fields) parks.
Proof.
  revert acc. induction items as [|park items IH]; intros acc Hloop Hacc; cbn [parse_loop] in Hloop.
  - congruence.
  - destruct (park_info park) as [info|e] eqn:Hinfo; [|discriminate].
    apply (IH _ Hloop). apply Forall_app. split; [assumption|].
    constructor; [|constructor].
    destruct park; try discriminate Hinfo.
    rewrite park_info_dict in Hinfo. injection Hinfo as <-. reflexivity.
Qed.

Lemma record_get_normalized (source : gmap string pyval) (key : string) :
  key ∈ park_fields ->
  record_get (normalized source) key = Some (default (PStr "N/A") (source !! key)).
Proof.
  unfold park_fields. intros Hkey.
  repeat (apply elem_of_cons in Hkey as [->|Hkey]; [reflexivity|]).
  by apply elem_of_nil in Hkey.
Qed.

(** A list of records can only come out of the loop. *)
Lemma parse_parks_data_Some (api_response : pyval) (c0 : cells) (parks : list park_record) :
  result (run (parse_parks_data api_response) c0) = Ret (Some parks) ->
  exists items, parse_loop items [] = Ret parks.
Proof.
  unfold result, run, parse_parks_data, bind, print, emit, lift, ret.
  cbn [trace sheet fst snd].
  destruct (truthy api_response); cbn [negb fst]; [|discriminate].
  destruct (py_contains "data" api_response) as [[|]|e]; cbn [negb fst]; try discriminate.
  destruct (py_getitem api_response "data") as [data|e]; cbn [fst]; [|discriminate].
  destruct (py_iter data) as [items|e]; cbn [fst]; [|discriminate].
  destruct (parse_loop items []) as [parks'|e] eqn:Hloop; cbn [fst]; [|discriminate].
  intros [= <-]. eauto.
Qed.

(** ** The parser *)

(** C1. When the ["data"] key of the response holds a list of N JSON
    objects, [parse_parks_data] returns a list of N records, the i-th built
    from the i-th object: its keys are the five fields and each field holds
    the object's value or the placeholder.  On the Yellowstone response it
    returns the one record with the five values of the scenario. *)
Theorem parse_parks_data_records :
  (forall (d : gmap string pyval) (sources : list (gmap string pyval)) (c0 : cells),
     d !! "data" = Some (PList (map PDict sources)) ->
     exists parks,
       result (run (parse_parks_data (PDict d)) c0) = Ret (Some parks)
       /\ length parks = length sources
       /\ forall (i : nat) (source : gmap string pyval),
            sources !! i = Some source ->
            exists r, parks !! i = Some r
              /\ record_keys r = park_fields
              /\ forall key, key ∈ park_fields ->
                   record_get r key = Some (default (PStr "N/A") (source !! key)))
  /\ result (run (parse_parks_data yellowstone_response) ∅) =
       Ret (Some [[("fullName", PStr "Yellowstone");
                   ("states", PStr "ID,MT,WY");
                   ("description", PStr "...");
                   ("acres", PInt 2219791);
                   ("designation", PStr "National Park")]]).
Proof.
  split; [|reflexivity].
  intros d sources c0 Hd.
  exists (map normalized sources).
  rewrite (parse_parks_data_with_data d _ c0 Hd).
  cbn [py_iter]. rewrite parse_loop_dicts. cbn [app result fst].
  split; [reflexivity|]. split; [apply length_map|].
  intros i source Hi. exists (normalized source).
  split; [by rewrite list_lookup_fmap, Hi|].
  split; [reflexivity|]. intros key. apply record_get_normalized.
Qed.

Lemma parse_parks_data_records_witness :
  exists parks,
    result (run (parse_parks_data
                   (PDict {[ "data" := PList (map PDict [yellowstone; {[ "fullName" := PStr "Test Park" ]}]);
                             "total" := PStr "2" ]})) ∅) = Ret (Some parks)
    /\ length parks = length [yellowstone; {[ "fullName" := PStr "Test Park" ]}]
    /\ forall (i : nat) (source : gmap string pyval),
         [yellowstone; {[ "fullName" := PStr "Test Park" ]}] !! i = Some source ->
         exists r, parks !! i = Some r
           /\ record_keys r = park_fields
           /\ forall key, key ∈ park_fields ->
                record_get r key = Some (default (PStr "N/A") (source !! key)).
Proof.
  apply (proj1 parse_parks_data_records
           {[ "data" := PList (map PDict [yellowstone; {[ "fullName" := PStr "Test Park" ]}]);
              "total" := PStr "2" ]}
           [yellowstone; {[ "fullName" := PStr "Test Park" ]}] ∅).
  reflexivity.
Defined.

(** C2. Whatever subset of the five fields a source record lacks,
    [parse_parks_data] gives each absent field the value ["N/A"] and each
    present field the value of the source; the record
    [{"fullName": "Test Park"}] becomes the row
    [["Test Park", "N/A", "N/A", "N/A", "N/A"]]. *)
Theorem parse_parks_data_placeholder :
  (forall (source : gmap string pyval) (c0 : cells),
     exists r,
       result (run (parse_parks_data (PDict {[ "data" := PList [PDict source] ]})) c0)
       = Ret (Some [r])
       /\ forall key, key ∈ park_fields ->
            record_get r key =
            Some (match source !! key with Some v => v | None => PStr "N/A" end))
  /\ exists r,
       result (run (parse_parks_data test_park_response) ∅) = Ret (Some [r])
       /\ record_values r =
          [PStr "Test Park"; PStr "N/A"; PStr "N/A"; PStr "N/A"; PStr "N/A"].
Proof.
  split.
  - intros source c0. exists (normalized source).
    rewrite (parse_parks_data_with_data _ (PList [PDict source]) c0)
      by apply lookup_singleton_eq.
    split; [reflexivity|].
    intros key Hkey. rewrite (record_get_normalized _ _ Hkey).
    by destruct (source !! key).
  - eexists. split; reflexivity.
Qed.

(** C10. Whatever other fields a source record carries, the record built
    from it has the keys fullName, states, description, acres, designation,
    in this order, and no other; so has every record of every list that
    [parse_parks_data] returns. *)
Theorem park_record_shape :
  (forall source : gmap string pyval,
     exists r, park_info (PDict source) = Ret r /\ record_keys r = park_fields)
  /\ forall (api_response : pyval) (c0 : cells) (parks : list park_record),
       result (run (parse_parks_data api_response) c0) = Ret (Some parks) ->
       Forall (fun r => record_keys r = park_fields) parks.
Proof.
  split.
  - intros source. exists (normalized source). split; reflexivity.
  - intros api_response c0 parks Hparse.
    destruct (parse_parks_data_Some _ _ _ Hparse) as [items Hloop].
    apply (parse_loop_keys items [] parks Hloop). constructor.
Qed.

Lemma park_record_shape_witness :
  Forall (fun r => record_keys r = park_fields)
         [[("fullName", PStr "Yellowstone");
           ("states", PStr "ID,MT,WY");
           ("description", PStr "...");
           ("acres", PInt 2219791);
           ("designation", PStr "National Park")]].
Proof.
  apply (proj2 park_record_shape yellowstone_response ∅). reflexivity.
Defined.

(** ** The table and the grid *)

Lemma add_key_known (acc : list string) (keys : list string) :
  Forall (fun key => key ∈ acc) keys -> fold_left add_key keys acc = acc.
Proof.
  induction 1 as [|key keys Hkey _ IH]; cbn [fold_left]; [reflexivity|].
  unfold add_key at 2. by rewrite bool_decide_eq_true_2.
Qed.

Lemma frame_columns_fields (records : list park_record) :
  records <> [] ->
  Forall (fun r => record_keys r = park_fields) records ->
  frame_columns records = park_fields.
Proof.
  intros Hne Hall. destruct Hall as [|r records Hr Hall]; [done|].
  unfold frame_columns. cbn [map concat]. rewrite fold_left_app, Hr.
  change (fold_left add_key park_fields []) with park_fields.
  apply add_key_known. apply Forall_concat, Forall_map.
  eapply Forall_impl; [exact Hall|]. intros r' ->. by apply Forall_forall.
Qed.

Lemma frame_row_values (r : park_record) :
  record_keys r = park_fields ->
  map (fun key => default NaN (record_get r key)) park_fields = record_values r.
Proof.
  unfold record_keys, park_fields. intros Hkeys.
  destruct r as [|[k1 v1] [|[k2 v2] [|[k3 v3] [|[k4 v4] [|[k5 v5] [|]]]]]];
    try discriminate Hkeys.
  cbn in Hkeys. injection Hkeys as -> -> -> -> ->. reflexivity.
Qed.

Lemma frame_rows_values (records : list park_record) :
  Forall (fun r => record_keys r = park_fields) records ->
  frame_rows records park_fields = map record_values records.
Proof.
  unfold frame_rows. induction 1 as [|r records Hr _ IH]; cbn [map]; [reflexivity|].
  by rewrite IH, (frame_row_values r Hr).
Qed.

Ltac step_py :=
  unfold run, result, events, final_sheet, bind, try_except, call, failure_or,
    print, emit, lift, ret, raise, set_sheet, get_sheet;
  cbn [trace sheet fst snd app negb].

Lemma same_shape_length (to_cells : grid -> grid) (m : grid) :
  map length (to_cells m) = map length m -> length (to_cells m) = length m.
Proof. intros H. by rewrite <- (length_map length (to_cells m)), H, length_map. Qed.

Lemma same_shape_rows (to_cells : grid -> grid) (m : grid) (n : nat) :
  map length (to_cells m) = map length m ->
  Forall (fun row => length row = n) m ->
  Forall (fun row => length row = n) (to_cells m).
Proof.
  intros H Hm.
  apply Forall_map with (f := length) (P := fun k => k = n).
  rewrite H. by apply Forall_map.
Qed.

Lemma cellwise_same_shape (to_cells : grid -> grid) (cell : nat -> pyval -> pyval) :
  cellwise to_cells cell -> forall m, map length (to_cells m) = map length m.
Proof.
  intros Hcell m. rewrite Hcell, map_map. apply map_ext. intros row. apply length_imap.
Qed.

Lemma cellwise_grid_cell (cell : nat -> pyval -> pyval) (m : grid) (i j : nat) :
  grid_cell (map (imap cell) m) i j = cell j <$> grid_cell m i j.
Proof.
  unfold grid_cell. rewrite list_lookup_fmap.
  destruct (m !! i) as [row|]; [|reflexivity]. cbn. apply list_lookup_imap.
Qed.

(** Where a field of a record sits in the row of its values. *)
Lemma record_field_at (r : park_record) (j : nat) (key : string) :
  record_keys r = park_fields ->
  park_fields !! j = Some key ->
  exists v, record_get r key = Some v /\ record_values r !! j = Some v.
Proof.
  unfold record_keys, park_fields. intros Hkeys Hj.
  destruct r as [|[k1 v1] [|[k2 v2] [|[k3 v3] [|[k4 v4] [|[k5 v5] [|]]]]]];
    try discriminate Hkeys.
  cbn in Hkeys. injection Hkeys as -> -> -> -> ->.
  destruct j as [|[|[|[|[|j]]]]]; cbn in Hj; try discriminate Hj;
    injection Hj as <-; eexists; split; reflexivity.
Qed.

Lemma records_grid_cell (records : list park_record) (i j : nat) (r : park_record)
      (key : string) :
  Forall (fun r => record_keys r = park_fields) records ->
  records !! i = Some r ->
  park_fields !! j = Some key ->
  exists v, record_get r key = Some v
            /\ grid_cell (map record_values records) i j = Some v.
Proof.
  intros Hkeys Hi Hj.
  assert (Hr : record_keys r = park_fields).
  { rewrite Forall_forall in Hkeys. apply Hkeys. by eapply list_elem_of_lookup_2. }
  destruct (record_field_at r j key Hr Hj) as (v & Hget & Hv).
  exists v. split; [exact Hget|].
  unfold grid_cell. by rewrite list_lookup_fmap, Hi.
Qed.

(** C3. For a non-empty list of park records, the grid that
    [write_to_google_sheet] passes to [worksheet.update] (after opening the
    sheet, taking worksheet 0 and clearing it) starts with the header row
    [fullName, states, description, acres, designation] and goes on with
    one row per record, in the order of the records: row [i + 1] is made
    from record [i], and its column [j] holds the record's value for the
    field that the header names in column [j], as the read-back of pandas
    renders that value. *)
Theorem sheet_grid_layout
  (E : env) (to_cells : grid -> grid) (cell : nat -> pyval -> pyval)
  (gc : client) (sheet_url : string)
  (records : list park_record) (ws : worksheet) (c0 : cells) :
  records <> [] ->
  Forall (fun r => record_keys r = park_fields) records ->
  cellwise to_cells cell ->
  client_open_by_url E = None ->
  spreadsheet_get_worksheet E = inr (Some ws) ->
  worksheet_clear E = None ->
  exists df,
    result (run (create_dataframe (Some records)) c0) = Ret (Some df)
    /\ (exists rest,
          events (run (write_to_google_sheet E to_cells gc sheet_url df) c0) =
          ([Print "📝 Writing data to Google Sheet...";
            OpenByUrl sheet_url; GetWorksheet 0; Clear;
            Update (sheet_grid to_cells df)] ++ rest)%list
          /\ Forall (fun ev => is_print ev = true) rest)
    /\ sheet_grid to_cells df =
       map PStr park_fields :: map (fun r => imap cell (record_values r)) records
    /\ length (sheet_grid to_cells df) = S (length records)
    /\ Forall (fun row => length row = length park_fields) (sheet_grid to_cells df)
    /\ (forall (j : nat) (key : string),
          park_fields !! j = Some key ->
          grid_cell (sheet_grid to_cells df) 0 j = Some (PStr key))
    /\ (forall (i : nat) (r : park_record) (j : nat) (key : string),
          records !! i = Some r ->
          park_fields !! j = Some key ->
          exists v, record_get r key = Some v
                    /\ grid_cell (sheet_grid to_cells df) (S i) j = Some (cell j v)).
Proof.
  intros Hne Hkeys Hcell Hopen Hws Hclear.
  pose proof (cellwise_same_shape to_cells cell Hcell) as Hshape.
  exists (pd_DataFrame records).
  assert (Hgrid : sheet_grid to_cells (pd_DataFrame records)
                  = map PStr park_fields :: to_cells (map record_values records)).
  { unfold sheet_grid, columns_tolist, values_tolist, pd_DataFrame.
    cbn [df_columns df_rows app].
    by rewrite (frame_columns_fields records Hne Hkeys), (frame_rows_values records Hkeys). }
  split; [|split; [|split; [|split; [|split; [|split]]]]].
  - destruct records as [|r records]; [done|]. reflexivity.
  - unfold write_to_google_sheet, clear_worksheet, update_worksheet. step_py.
    rewrite Hopen, Hws. step_py. rewrite Hclear. step_py.
    destruct (worksheet_update E) as [e|]; step_py.
    + destruct (isinstance e Exception); step_py;
        eexists; (split; [reflexivity|]); repeat constructor.
    + eexists; (split; [reflexivity|]); repeat constructor.
  - by rewrite Hgrid, Hcell, map_map.
  - rewrite Hgrid. cbn [length]. f_equal.
    by rewrite (same_shape_length _ _ (Hshape _)), length_map.
  - rewrite Hgrid. constructor; [reflexivity|].
    apply same_shape_rows; [apply Hshape|].
    apply Forall_map. eapply Forall_impl; [exact Hkeys|].
    intros r Hr. unfold record_values. rewrite length_map.
    by rewrite <- Hr; unfold record_keys; rewrite length_map.
  - intros j key Hj. rewrite Hgrid. unfold grid_cell. cbn [lookup list_lookup].
    by rewrite list_lookup_fmap, Hj.
  - intros i r j key Hi Hj. rewrite Hgrid, Hcell.
    destruct (records_grid_cell records i j r key Hkeys Hi Hj) as (v & Hget & Hv).
    exists v. split; [exact Hget|].
    change (grid_cell (map PStr park_fields :: map (imap cell) (map record_values records))
                      (S i) j)
      with (grid_cell (map (imap cell) (map record_values records)) i j).
    by rewrite cellwise_grid_cell, Hv.
Qed.

Lemma sheet_grid_layout_witness :
  exists df,
    result (run (create_dataframe
                   (Some [normalized yellowstone;
                          normalized {[ "fullName" := PStr "Test Park" ]}])) ∅)
    = Ret (Some df)
    /\ (exists rest,
          events (run (write_to_google_sheet (serving yellowstone_response)
                         (map (imap (fun _ v => v)))
                         (mkClient (mkCredentials 1)) (SHEET_URL configured) df) ∅) =
          ([Print "📝 Writing data to Google Sheet...";
            OpenByUrl (SHEET_URL configured); GetWorksheet 0; Clear;
            Update (sheet_grid (map (imap (fun _ v => v))) df)] ++ rest)%list
          /\ Forall (fun ev => is_print ev = true) rest)
    /\ sheet_grid (map (imap (fun _ v => v))) df =
       map PStr park_fields
       :: map (fun r => imap (fun _ v => v) (record_values r))
              [normalized yellowstone; normalized {[ "fullName" := PStr "Test Park" ]}]
    /\ length (sheet_grid (map (imap (fun _ v => v))) df) = 3%nat
    /\ Forall (fun row => length row = length park_fields)
              (sheet_grid (map (imap (fun _ v => v))) df)
    /\ (forall (j : nat) (key : string),
          park_fields !! j = Some key ->
          grid_cell (sheet_grid (map (imap (fun _ v => v))) df) 0 j = Some (PStr key))
    /\ (forall (i : nat) (r : park_record) (j : nat) (key : string),
          [normalized yellowstone; normalized {[ "fullName" := PStr "Test Park" ]}] !! i
          = Some r ->
          park_fields !! j = Some key ->
          exists v, record_get r key = Some v
                    /\ grid_cell (sheet_grid (map (imap (fun _ v => v))) df) (S i) j = Some v).
Proof.
  apply (sheet_grid_layout (serving yellowstone_response)
           (map (imap (fun _ v => v))) (fun _ v => v)
           (mkClient (mkCredentials 1)) (SHEET_URL configured)
           [normalized yellowstone; normalized {[ "fullName" := PStr "Test Park" ]}]
           (mkWorksheet 0) ∅).
  - discriminate.
  - repeat constructor.
  - intros m. reflexivity.
  - reflexivity.
  - reflexivity.
  - reflexivity.
Defined.

(** ** Stages that leave the spreadsheet alone *)

Lemma quiet_ret {A} (a : A) : quiet (ret a).
Proof. intros w Hw. by split. Qed.

Lemma quiet_raise {A} (e : exn) : quiet (@raise A e).
Proof. intros w Hw. by split. Qed.

Lemma quiet_lift {A} (o : outcome A) : quiet (lift o).
Proof. intros w Hw. by split. Qed.

Lemma quiet_emit (ev : event) : past_parsing ev = false -> quiet (emit ev).
Proof.
  intros Hev w Hw. split; [|reflexivity].
  cbn. apply Forall_app. split; [exact Hw|]. by repeat constructor.
Qed.

Lemma quiet_print (line : string) :
  past_parsing (Print line) = false -> quiet (print line).
Proof. apply quiet_emit. Qed.

Lemma quiet_bind {A B} (m : M A) (k : A -> M B) :
  quiet m -> (forall a, returns m a -> quiet (k a)) -> quiet (bind m k).
Proof.
  intros Hm Hk w Hw. unfold bind.
  destruct (Hm w Hw) as [Ht Hs].
  destruct (m w) as [[a|e] w'] eqn:Hrun; cbn [fst snd] in *.
  - assert (Ha : returns m a) by (exists w; by rewrite Hrun).
    destruct (Hk a Ha w' Ht) as [Ht' Hs']. split; [exact Ht'|congruence].
  - by split.
Qed.

Lemma quiet_try_except {A} (body : M A) (cls : exn_class) (handler : exn -> M A) :
  quiet body -> (forall e, quiet (handler e)) -> quiet (try_except body cls handler).
Proof.
  intros Hbody Hhandler w Hw. unfold try_except.
  destruct (Hbody w Hw) as [Ht Hs].
  destruct (body w) as [[a|e] w'] eqn:Hrun; cbn [fst snd] in *; [by split|].
  destruct (isinstance e cls); [|by split].
  destruct (Hhandler e w' Ht) as [Ht' Hs']. split; [exact Ht'|congruence].
Qed.

Lemma quiet_call {A} (ev : event) (answer : exn + A) :
  past_parsing ev = false -> quiet (call ev answer).
Proof.
  intros Hev. unfold call. apply quiet_bind; [by apply quiet_emit|].
  intros _ _. destruct answer; [apply quiet_raise|apply quiet_ret].
Qed.

Lemma quiet_raise_for_status (r : response) : quiet (raise_for_status r).
Proof.
  unfold raise_for_status.
  repeat match goal with |- context [if ?b then _ else _] => destruct b end;
    first [apply quiet_raise | apply quiet_ret].
Qed.

Ltac quiet_steps :=
  repeat lazymatch goal with
    | |- quiet (ret _) => apply quiet_ret
    | |- quiet (raise _) => apply quiet_raise
    | |- quiet (lift _) => apply quiet_lift
    | |- quiet (print _) => apply quiet_print; reflexivity
    | |- quiet (raise_for_status _) => apply quiet_raise_for_status
    | |- quiet (call _ _) => apply quiet_call; reflexivity
    | |- quiet (try_except _ _ _) => apply quiet_try_except; [|intros ?]
    | |- quiet (bind _ _) => apply quiet_bind; [|intros ? _]
    end.

Lemma quiet_authenticate_google (E : env) : quiet (authenticate_google E).
Proof. unfold authenticate_google. quiet_steps. Qed.

Lemma quiet_fetch_parks_data (E : env) (api_key : string) (limit : Z) :
  quiet (fetch_parks_data E api_key limit).
Proof. unfold fetch_parks_data. cbv zeta. quiet_steps. Qed.

Lemma quiet_parse_parks_data (api_response : pyval) : quiet (parse_parks_data api_response).
Proof.
  unfold parse_parks_data. quiet_steps.
  - destruct (negb (truthy api_response)); quiet_steps.
  - match goal with |- quiet (if ?b then _ else _) => destruct b end; quiet_steps.
Qed.

(** What the fetch stage can hand to [main]. *)
Lemma fetch_parks_data_returns (E : env) (api_key : string) (limit : Z) (v : pyval) :
  returns (fetch_parks_data E api_key limit) v ->
  v = PNone
  \/ exists r, requests_get E = inr r /\ json r = inr v
               /\ ~ (400 <= status_code r < 600).
Proof.
  intros [w Hw]. revert Hw. unfold fetch_parks_data, raise_for_status. step_py.
  destruct (requests_get E) as [e|r]; step_py.
  - destruct (isinstance e RequestException); step_py; [|discriminate].
    intros [= <-]. by left.
  - destruct ((400 <=? status_code r) && (status_code r <? 500)) eqn:H4; step_py.
    { cbn [isinstance exn_cls]. cbn. intros [= <-]. by left. }
    destruct ((500 <=? status_code r) && (status_code r <? 600)) eqn:H5; step_py.
    { cbn. intros [= <-]. by left. }
    destruct (json r) as [e|body] eqn:Hjson; step_py.
    + destruct (isinstance e RequestException); step_py; [|discriminate].
      intros [= <-]. by left.
    + intros [= <-]. right. exists r. repeat split; [exact Hjson|]. lia.
Qed.

Lemma parse_parks_data_no_data (api_response : pyval) (w : world) :
  no_data api_response ->
  parse_parks_data api_response w =
  (Ret None, mkWorld (trace w ++ [Print "📊 Parsing park data...";
                                  Print "❌ No data found in API response"]) (sheet w)).
Proof.
  intros Hno. unfold parse_parks_data. step_py.
  destruct Hno as [Hfalsy|(d & -> & Hd)].
  - rewrite Hfalsy. step_py. by rewrite <- app_assoc.
  - destruct (truthy (PDict d)); step_py.
    + cbn [py_contains]. rewrite bool_decide_eq_false_2; [|rewrite Hd; by intros [? ?]].
      step_py. by rewrite <- app_assoc.
    + by rewrite <- app_assoc.
Qed.

(** [main] stops before the table and the sink whenever what the parser
    makes of the fetched response is falsy. *)
Lemma main_quiet_when (E : env) (cfg : config) (to_cells : grid -> grid) :
  (forall v parks,
     returns (fetch_parks_data E (API_KEY cfg) 50) v -> truthy v = true ->
     returns (parse_parks_data v) parks -> truthy_parks parks = false) ->
  quiet (main E cfg to_cells).
Proof.
  intros Hstop. unfold main.
  do 3 (apply quiet_bind; [by apply quiet_print|intros _ _]).
  destruct (String.eqb (API_KEY cfg) _); [by apply quiet_print|].
  destruct (String.eqb (SHEET_URL cfg) _); [by apply quiet_print|].
  apply quiet_bind; [apply quiet_authenticate_google|intros gc _].
  cbn [truthy_client negb].
  apply quiet_bind; [apply quiet_fetch_parks_data|intros v Hv].
  destruct (truthy v) eqn:Hv'; cbn [negb]; [|apply quiet_ret].
  apply quiet_bind; [apply quiet_parse_parks_data|intros parks Hparks].
  rewrite (Hstop v parks Hv Hv' Hparks). apply quiet_ret.
Qed.

Lemma no_table_or_sink_no_sink (t : list event) :
  no_table_or_sink_call t -> no_sink_call t.
Proof.
  intros Ht. eapply Forall_impl; [exact Ht|]. intros ev Hev.
  unfold past_parsing in Hev. by apply orb_false_elim in Hev as [_ ?].
Qed.

Lemma no_table_or_sink_no_table (t : list event) :
  no_table_or_sink_call t -> ~ In (Print "📋 Creating DataFrame...") t.
Proof.
  intros Ht Hin. unfold no_table_or_sink_call in Ht.
  rewrite Forall_forall in Ht. apply list_elem_of_In in Hin.
  specialize (Ht _ Hin). discriminate Ht.
Qed.

Lemma quiet_run {A} (m : M A) (c0 : cells) :
  quiet m ->
  no_table_or_sink_call (events (run m c0)) /\ final_sheet (run m c0) = c0.
Proof. intros Hm. apply (Hm (mkWorld [] c0)). constructor. Qed.

Lemma parse_parks_data_returns_no_data (api_response : pyval)
      (parks : option (list park_record)) :
  no_data api_response -> returns (parse_parks_data api_response) parks -> parks = None.
Proof.
  intros Hno [w Hw]. rewrite (parse_parks_data_no_data _ w Hno) in Hw.
  cbn in Hw. congruence.
Qed.

(** ** The pipeline *)

(** C4. When the response is absent or empty, or is an object without
    the ["data"] key, [parse_parks_data] returns [None] and prints that no
    data was found; and when the API answers with such a body, [main] makes
    no call on the spreadsheet and the sheet stays as it was.  With a body
    that has no ["data"] key the run ends on the parser's message. *)
Theorem missing_data_halts_pipeline :
  (forall (api_response : pyval) (c0 : cells),
     no_data api_response ->
     result (run (parse_parks_data api_response) c0) = Ret None
     /\ events (run (parse_parks_data api_response) c0) =
        [Print "📊 Parsing park data..."; Print "❌ No data found in API response"])
  /\ (forall (E : env) (cfg : config) (to_cells : grid -> grid)
             (r : response) (api_response : pyval) (c0 : cells),
        requests_get E = inr r -> json r = inr api_response -> no_data api_response ->
        no_sink_call (events (run (main E cfg to_cells) c0))
        /\ final_sheet (run (main E cfg to_cells) c0) = c0)
  /\ (result (run (main (serving (PDict {[ "total" := PStr "0" ]})) configured (fun g => g)) ∅)
      = Ret tt
      /\ last (events (run (main (serving (PDict {[ "total" := PStr "0" ]}))
                                 configured (fun g => g)) ∅))
         = Some (Print "❌ No data found in API response")).
Proof.
  split; [|split].
  - intros api_response c0 Hno. unfold run.
    rewrite (parse_parks_data_no_data _ _ Hno). by split.
  - intros E cfg to_cells r api_response c0 Hget Hjson Hno.
    destruct (quiet_run (main E cfg to_cells) c0) as [Ht Hs]; [|split; [|exact Hs]].
    + apply main_quiet_when. intros v parks Hv Hv' Hparks.
      destruct (fetch_parks_data_returns _ _ _ _ Hv) as [->|(r' & Hget' & Hjson' & _)];
        [discriminate Hv'|].
      assert (r' = r) as -> by congruence.
      assert (v = api_response) as -> by congruence.
      by rewrite (parse_parks_data_returns_no_data _ _ Hno Hparks).
    + by apply no_table_or_sink_no_sink.
  - split; reflexivity.
Qed.

Lemma missing_data_halts_pipeline_witness :
  no_sink_call (events (run (main (serving (PDict ∅)) configured (fun g => g)) ∅))
  /\ final_sheet (run (main (serving (PDict ∅)) configured (fun g => g)) ∅) = ∅.
Proof.
  apply (proj1 (proj2 missing_data_halts_pipeline)
           (serving (PDict ∅)) configured (fun g => g) (ok_response (PDict ∅)) (PDict ∅) ∅).
  - reflexivity.
  - reflexivity.
  - left. reflexivity.
Defined.

(** C9. When the ["data"] key holds an empty list, [parse_parks_data]
    succeeds with an empty list of records; [main] takes it for a failure
    and returns before the table stage and the sink stage, so the sheet is
    neither cleared nor written. *)
Theorem empty_data_halts_pipeline :
  (forall (d : gmap string pyval) (c0 : cells),
     d !! "data" = Some (PList []) ->
     result (run (parse_parks_data (PDict d)) c0) = Ret (Some [])
     /\ events (run (parse_parks_data (PDict d)) c0) =
        [Print "📊 Parsing park data..."; Print "✅ Parsed 0 parks successfully!"])
  /\ (forall (E : env) (cfg : config) (to_cells : grid -> grid)
             (r : response) (d : gmap string pyval) (c0 : cells),
        requests_get E = inr r -> json r = inr (PDict d) ->
        d !! "data" = Some (PList []) ->
        no_sink_call (events (run (main E cfg to_cells) c0))
        /\ ~ In (Print "📋 Creating DataFrame...") (events (run (main E cfg to_cells) c0))
        /\ final_sheet (run (main E cfg to_cells) c0) = c0)
  /\ (result (run (main (serving (PDict {[ "data" := PList [] ]})) configured (fun g => g)) ∅)
      = Ret tt
      /\ last (events (run (main (serving (PDict {[ "data" := PList [] ]}))
                                 configured (fun g => g)) ∅))
         = Some (Print "✅ Parsed 0 parks successfully!")).
Proof.
  split; [|split].
  - intros d c0 Hd. rewrite (parse_parks_data_with_data d _ c0 Hd). by split.
  - intros E cfg to_cells r d c0 Hget Hjson Hd.
    destruct (quiet_run (main E cfg to_cells) c0) as [Ht Hs].
    + apply main_quiet_when. intros v parks Hv Hv' [w Hw].
      destruct (fetch_parks_data_returns _ _ _ _ Hv) as [->|(r' & Hget' & Hjson' & _)];
        [discriminate Hv'|].
      assert (r' = r) as -> by congruence.
      assert (v = PDict d) as -> by congruence.
      revert Hw. unfold parse_parks_data, bind, print, emit, lift, ret.
      cbn [trace sheet app].
      rewrite (dict_with_key_truthy d "data" _ Hd). cbn [negb py_contains py_getitem].
      rewrite Hd, bool_decide_eq_true_2 by eauto. cbn.
      by intros [= <-].
    + split; [by apply no_table_or_sink_no_sink|].
      split; [by apply no_table_or_sink_no_table|exact Hs].
  - split; reflexivity.
Qed.

Lemma empty_data_halts_pipeline_witness :
  no_sink_call (events (run (main (serving (PDict {[ "data" := PList [] ]}))
                                  configured (fun g => g)) ∅))
  /\ ~ In (Print "📋 Creating DataFrame...")
          (events (run (main (serving (PDict {[ "data" := PList [] ]}))
                             configured (fun g => g)) ∅))
  /\ final_sheet (run (main (serving (PDict {[ "data" := PList [] ]}))
                            configured (fun g => g)) ∅) = ∅.
Proof.
  apply (proj1 (proj2 empty_data_halts_pipeline)
           (serving (PDict {[ "data" := PList [] ]})) configured (fun g => g)
           (ok_response (PDict {[ "data" := PList [] ]})) {[ "data" := PList [] ]} ∅);
    reflexivity.
Defined.

(** C6. While [API_KEY] or [SHEET_URL] still holds its placeholder,
    [main] prints the banner and one guidance message and returns: the run
    makes no authentication call, no request and no spreadsheet call. *)
Theorem placeholder_config_refused
  (E : env) (cfg : config) (to_cells : grid -> grid) (c0 : cells) :
  API_KEY cfg = "YOUR_API_KEY_HERE" \/ SHEET_URL cfg = "YOUR_GOOGLE_SHEET_URL_HERE" ->
  result (run (main E cfg to_cells) c0) = Ret tt
  /\ (exists guidance,
        events (run (main E cfg to_cells) c0) =
        [Print banner; Print "National Parks Data Collector"; Print banner; Print guidance]
        /\ (guidance = "❌ ERROR: Please paste your NPS API key in the API_KEY variable"
            \/ guidance =
               "❌ ERROR: Please paste your Google Sheet URL in the SHEET_URL variable"))
  /\ Forall (fun ev => is_auth_event ev = false /\ is_network_event ev = false
                       /\ is_sink_event ev = false)
            (events (run (main E cfg to_cells) c0))
  /\ final_sheet (run (main E cfg to_cells) c0) = c0.
Proof.
  intros Hcfg. unfold main. step_py.
  destruct (String.eqb (API_KEY cfg) "YOUR_API_KEY_HERE") eqn:Hkey.
  - split; [reflexivity|]. split; [eexists; split; [reflexivity|by left]|].
    split; [|reflexivity]. by repeat constructor.
  - destruct Hcfg as [Hcfg|Hcfg]; [rewrite Hcfg in Hkey; discriminate Hkey|].
    rewrite Hcfg. cbn [String.eqb Ascii.eqb Bool.eqb]. 
    split; [reflexivity|]. split; [eexists; split; [reflexivity|by right]|].
    split; [|reflexivity]. by repeat constructor.
Qed.

Lemma placeholder_config_refused_witness :
  result (run (main (serving yellowstone_response)
                    (mkConfig "demo-key" "YOUR_GOOGLE_SHEET_URL_HERE") (fun g => g)) ∅) = Ret tt
  /\ (exists guidance,
        events (run (main (serving yellowstone_response)
                          (mkConfig "demo-key" "YOUR_GOOGLE_SHEET_URL_HERE") (fun g => g)) ∅) =
        [Print banner; Print "National Parks Data Collector"; Print banner; Print guidance]
        /\ (guidance = "❌ ERROR: Please paste your NPS API key in the API_KEY variable"
            \/ guidance =
               "❌ ERROR: Please paste your Google Sheet URL in the SHEET_URL variable"))
  /\ Forall (fun ev => is_auth_event ev = false /\ is_network_event ev = false
                       /\ is_sink_event ev = false)
            (events (run (main (serving yellowstone_response)
                               (mkConfig "demo-key" "YOUR_GOOGLE_SHEET_URL_HERE")
                               (fun g => g)) ∅))
  /\ final_sheet (run (main (serving yellowstone_response)
                            (mkConfig "demo-key" "YOUR_GOOGLE_SHEET_URL_HERE")
                            (fun g => g)) ∅) = ∅.
Proof.
  apply (placeholder_config_refused (serving yellowstone_response)
           (mkConfig "demo-key" "YOUR_GOOGLE_SHEET_URL_HERE") (fun g => g) ∅).
  right. reflexivity.
Defined.

Lemma http_error_is_request_exception (msg : string) :
  isinstance (mkExn HTTPError msg) RequestException = true.
Proof. reflexivity. Qed.





(** ** The sink *)

(** C8. Whichever call of the sink stage raises an [Exception] (opening
    the sheet, taking the worksheet, clearing it, updating it),
    [write_to_google_sheet] prints the error and returns [False]; nothing is
    raised to the caller.  Nothing is undone: when the update fails after
    the clear, no further call is made and the sheet is left empty.  With a
    locator that names no spreadsheet, the stage stops at [open_by_url] and
    the sheet keeps its content. *)
Theorem sink_failure_reported :
  (forall (E : env) (to_cells : grid -> grid) (gc : client) (sheet_url : string)
          (df : DataFrame) (c0 : cells) (e : exn),
     sink_failure E = Some e ->
     isinstance e Exception = true ->
     result (run (write_to_google_sheet E to_cells gc sheet_url df) c0) = Ret false
     /\ last (events (run (write_to_google_sheet E to_cells gc sheet_url df) c0)) =
        Some (Print ("❌ Error writing to Google Sheet: " +:+ exn_msg e)))
  /\ (forall (E : env) (to_cells : grid -> grid) (gc : client) (sheet_url : string)
             (df : DataFrame) (c0 : cells) (ws : worksheet) (e : exn),
        client_open_by_url E = None ->
        spreadsheet_get_worksheet E = inr (Some ws) ->
        worksheet_clear E = None ->
        worksheet_update E = Some e ->
        isinstance e Exception = true ->
        events (run (write_to_google_sheet E to_cells gc sheet_url df) c0) =
        [Print "📝 Writing data to Google Sheet...";
         OpenByUrl sheet_url; GetWorksheet 0; Clear; Update (sheet_grid to_cells df);
         Print ("❌ Error writing to Google Sheet: " +:+ exn_msg e)]
        /\ final_sheet (run (write_to_google_sheet E to_cells gc sheet_url df) c0) = ∅)
  /\ (forall (to_cells : grid -> grid) (gc : client) (df : DataFrame) (c0 : cells),
        result (run (write_to_google_sheet bad_locator to_cells gc "not-a-sheet" df) c0) = Ret false
        /\ events (run (write_to_google_sheet bad_locator to_cells gc "not-a-sheet" df) c0) =
           [Print "📝 Writing data to Google Sheet...";
            OpenByUrl "not-a-sheet";
            Print "❌ Error writing to Google Sheet: No valid key found in URL"]
        /\ final_sheet (run (write_to_google_sheet bad_locator to_cells gc "not-a-sheet" df) c0) = c0).
Proof.
  split; [|split].
  - intros E to_cells gc sheet_url df c0 e Hfail He. revert Hfail.
    unfold sink_failure, write_to_google_sheet, clear_worksheet, update_worksheet.
    step_py.
    destruct (client_open_by_url E) as [e1|]; step_py.
    { intros [= ->]. rewrite He. by split. }
    destruct (spreadsheet_get_worksheet E) as [e2|[ws|]]; step_py.
    { intros [= ->]. rewrite He. by split. }
    2:{ intros [= <-]. by split. }
    destruct (worksheet_clear E) as [e3|]; step_py.
    { intros [= ->]. rewrite He. by split. }
    intros ->. step_py. rewrite He. by split.
  - intros E to_cells gc sheet_url df c0 ws e Hopen Hws Hclear Hupdate He.
    unfold write_to_google_sheet, clear_worksheet, update_worksheet. step_py.
    rewrite Hopen, Hws. step_py. rewrite Hclear. step_py. rewrite Hupdate. step_py.
    rewrite He. by split.
  - intros to_cells gc df c0. by repeat split.
Qed.

Lemma sink_failure_reported_witness :
  events (run (write_to_google_sheet update_refused (fun g => g) (mkClient (mkCredentials 1))
                 (SHEET_URL configured)
                 (mkDataFrame park_fields [record_values (normalized yellowstone)])
              ) {[ (0%nat, 0%nat) := PStr "last week" ]}) =
  [Print "📝 Writing data to Google Sheet...";
   OpenByUrl (SHEET_URL configured); GetWorksheet 0; Clear;
   Update (sheet_grid (fun g => g) (mkDataFrame park_fields [record_values (normalized yellowstone)]));
   Print ("❌ Error writing to Google Sheet: " +:+ exn_msg (mkExn APIError "quota exceeded"))]
  /\ final_sheet (run (write_to_google_sheet update_refused (fun g => g) (mkClient (mkCredentials 1))
                         (SHEET_URL configured)
                         (mkDataFrame park_fields [record_values (normalized yellowstone)])
                      ) {[ (0%nat, 0%nat) := PStr "last week" ]}) = ∅.
Proof.
  apply (proj1 (proj2 sink_failure_reported) update_refused (fun g => g) (mkClient (mkCredentials 1))
           (SHEET_URL configured)
           (mkDataFrame park_fields [record_values (normalized yellowstone)])
           {[ (0%nat, 0%nat) := PStr "last week" ]} (mkWorksheet 0)
           (mkExn APIError "quota exceeded"));
    reflexivity.
Defined.

(** ** Failures that [main] does not catch *)

(** C5. [main] does not return normally from every failure: an exception
    raised while authenticating leaves [main] as an exception, with no
    message of the script printed for it, and so does a response whose
    ["data"] is not a list of objects. *)
Theorem main_propagates_authentication_failure :
  result (run (main auth_refused configured (fun g => g)) ∅) =
  Raise (mkExn Exception "credential propagation was unsuccessful")
  /\ events (run (main auth_refused configured (fun g => g)) ∅) =
     [Print banner; Print "National Parks Data Collector"; Print banner;
      Print "🔐 Authenticating with Google..."; AuthenticateUser]
  /\ result (run (main (serving (PDict {[ "data" := PNone ]})) configured (fun g => g)) ∅) =
     Raise (mkExn TypeError "'NoneType' object is not iterable").
Proof. repeat split. Qed.

(** ** Writing the sheet and reading it back *)

Lemma write_row_lookup (row : list pyval) (i j : nat) (c : cells) (i' j' : nat) :
  write_row i j row c !! (i', j') =
  if decide (i' = i /\ (j <= j')%nat)
  then match row !! (j' - j)%nat with
       | Some v => Some v
       | None => c !! (i', j')
       end
  else c !! (i', j').
Proof.
  revert j c. induction row as [|v row IH]; intros j c; cbn [write_row].
  - by destruct (decide _).
  - rewrite IH. destruct (decide (i' = i /\ (S j <= j')%nat)) as [[-> Hj]|Hno].
    + rewrite decide_True by (split; [done|lia]).
      replace (j' - j)%nat with (S (j' - S j)) by lia. cbn [lookup list_lookup].
      destruct (row !! (j' - S j)%nat); [reflexivity|].
      rewrite lookup_insert_ne; [reflexivity|]. intros [= ?]. lia.
    + destruct (decide (i' = i /\ (j <= j')%nat)) as [[-> Hj]|Hno'].
      * assert (j' = j) as -> by lia. rewrite Nat.sub_diag. cbn.
        by rewrite lookup_insert_eq.
      * rewrite lookup_insert_ne; [reflexivity|]. intros [= <- <-]. apply Hno'. by split.
Qed.

Lemma write_rows_lookup (g : grid) (i : nat) (c : cells) (i' j' : nat) :
  write_rows i g c !! (i', j') =
  if decide (i <= i')%nat
  then match grid_cell g (i' - i) j' with
       | Some v => Some v
       | None => c !! (i', j')
       end
  else c !! (i', j').
Proof.
  revert i c. induction g as [|row g IH]; intros i c; cbn [write_rows].
  - unfold grid_cell. rewrite lookup_nil. by destruct (decide _).
  - rewrite IH, write_row_lookup. unfold grid_cell.
    destruct (decide (S i <= i')%nat) as [Hi|Hi].
    + rewrite (decide_True (P := (i <= i')%nat)) by lia.
      rewrite (decide_False (P := i' = i /\ (0 <= j')%nat)) by lia.
      replace (i' - i)%nat with (S (i' - S i)) by lia. reflexivity.
    + destruct (decide (i <= i')%nat) as [Hi'|Hi'].
      * assert (i' = i) as -> by lia. rewrite Nat.sub_diag. cbn [lookup list_lookup].
        rewrite decide_True by (split; [done|lia]). by rewrite Nat.sub_0_r.
      * rewrite decide_False by lia. reflexivity.
Qed.

(** Written on an empty sheet, a grid reads back cell by cell. *)
Lemma write_rows_empty (g : grid) (i j : nat) :
  write_rows 0 g ∅ !! (i, j) = grid_cell g i j.
Proof.
  rewrite write_rows_lookup, decide_True by lia. rewrite Nat.sub_0_r, lookup_empty.
  by destruct (grid_cell g i j).
Qed.

(** X1. When every call of the sink stage succeeds,
    [write_to_google_sheet] returns [True] after opening the sheet by its
    URL, taking worksheet 0, clearing it and updating it once, and the sheet
    then holds the grid and nothing else: whatever it held before is gone. *)
Theorem write_to_google_sheet_overwrites
  (E : env) (to_cells : grid -> grid) (gc : client) (sheet_url : string)
  (df : DataFrame) (c0 : cells) :
  sink_accepts E ->
  result (run (write_to_google_sheet E to_cells gc sheet_url df) c0) = Ret true
  /\ events (run (write_to_google_sheet E to_cells gc sheet_url df) c0) =
     [Print "📝 Writing data to Google Sheet...";
      OpenByUrl sheet_url; GetWorksheet 0; Clear; Update (sheet_grid to_cells df);
      Print ("✅ Successfully wrote " +:+ str_of_nat (length (df_rows df))
             +:+ " parks to Google Sheet!");
      Print ("🔗 View your data: " +:+ sheet_url)]
  /\ forall i j : nat,
       final_sheet (run (write_to_google_sheet E to_cells gc sheet_url df) c0) !! (i, j)
       = grid_cell (sheet_grid to_cells df) i j.
Proof.
  intros (Hopen & [ws Hws] & Hclear & Hupdate).
  unfold write_to_google_sheet, clear_worksheet, update_worksheet. step_py.
  rewrite Hopen, Hws. step_py. rewrite Hclear. step_py. rewrite Hupdate. step_py.
  split; [reflexivity|]. split; [reflexivity|].
  intros i j. apply write_rows_empty.
Qed.

Lemma write_to_google_sheet_overwrites_witness :
  result (run (write_to_google_sheet (serving yellowstone_response) (fun g => g)
                 (mkClient (mkCredentials 1)) (SHEET_URL configured)
                 (pd_DataFrame [normalized yellowstone]))
              {[ (9%nat, 9%nat) := PStr "last week" ]}) = Ret true
  /\ events (run (write_to_google_sheet (serving yellowstone_response) (fun g => g)
                    (mkClient (mkCredentials 1)) (SHEET_URL configured)
                    (pd_DataFrame [normalized yellowstone]))
                 {[ (9%nat, 9%nat) := PStr "last week" ]}) =
     [Print "📝 Writing data to Google Sheet...";
      OpenByUrl (SHEET_URL configured); GetWorksheet 0; Clear;
      Update (sheet_grid (fun g => g) (pd_DataFrame [normalized yellowstone]));
      Print ("✅ Successfully wrote "
             +:+ str_of_nat (length (df_rows (pd_DataFrame [normalized yellowstone])))
             +:+ " parks to Google Sheet!");
      Print ("🔗 View your data: " +:+ SHEET_URL configured)]
  /\ forall i j : nat,
       final_sheet (run (write_to_google_sheet (serving yellowstone_response) (fun g => g)
                           (mkClient (mkCredentials 1)) (SHEET_URL configured)
                           (pd_DataFrame [normalized yellowstone]))
                        {[ (9%nat, 9%nat) := PStr "last week" ]}) !! (i, j)
       = grid_cell (sheet_grid (fun g => g) (pd_DataFrame [normalized yellowstone])) i j.
Proof.
  apply (write_to_google_sheet_overwrites (serving yellowstone_response) (fun g => g)
           (mkClient (mkCredentials 1)) (SHEET_URL configured)
           (pd_DataFrame [normalized yellowstone])
           {[ (9%nat, 9%nat) := PStr "last week" ]}).
  repeat split. by exists (mkWorksheet 0).
Defined.

(** X2. When the sheet cannot be opened, or no worksheet is obtained
    from it, [write_to_google_sheet] neither clears nor updates anything:
    the sheet keeps its content and the stage does not report success. *)
Theorem write_to_google_sheet_unopened
  (E : env) (to_cells : grid -> grid) (gc : client) (sheet_url : string)
  (df : DataFrame) (c0 : cells) :
  is_Some (client_open_by_url E)
  \/ (forall ws, spreadsheet_get_worksheet E <> inr (Some ws)) ->
  Forall (fun ev => changes_sheet ev = false)
         (events (run (write_to_google_sheet E to_cells gc sheet_url df) c0))
  /\ final_sheet (run (write_to_google_sheet E to_cells gc sheet_url df) c0) = c0
  /\ result (run (write_to_google_sheet E to_cells gc sheet_url df) c0) <> Ret true.
Proof.
  intros Hfail.
  unfold write_to_google_sheet, clear_worksheet, update_worksheet. step_py.
  destruct (client_open_by_url E) as [e|]; step_py.
  { destruct (isinstance e Exception); step_py;
      (split; [by repeat constructor|split; [reflexivity|discriminate]]). }
  destruct Hfail as [[e He]|Hws]; [discriminate He|].
  destruct (spreadsheet_get_worksheet E) as [e|[ws|]]; step_py.
  - destruct (isinstance e Exception); step_py;
      (split; [by repeat constructor|split; [reflexivity|discriminate]]).
  - by destruct (Hws ws).
  - split; [by repeat constructor|split; [reflexivity|discriminate]].
Qed.

Lemma write_to_google_sheet_unopened_witness :
  Forall (fun ev => changes_sheet ev = false)
         (events (run (write_to_google_sheet bad_locator (fun g => g)
                         (mkClient (mkCredentials 1)) "not-a-sheet"
                         (pd_DataFrame [normalized yellowstone]))
                      {[ (0%nat, 0%nat) := PStr "last week" ]}))
  /\ final_sheet (run (write_to_google_sheet bad_locator (fun g => g)
                         (mkClient (mkCredentials 1)) "not-a-sheet"
                         (pd_DataFrame [normalized yellowstone]))
                      {[ (0%nat, 0%nat) := PStr "last week" ]})
     = {[ (0%nat, 0%nat) := PStr "last week" ]}
  /\ result (run (write_to_google_sheet bad_locator (fun g => g)
                    (mkClient (mkCredentials 1)) "not-a-sheet"
                    (pd_DataFrame [normalized yellowstone]))
                 {[ (0%nat, 0%nat) := PStr "last week" ]}) <> Ret true.
Proof.
  apply (write_to_google_sheet_unopened bad_locator (fun g => g)
           (mkClient (mkCredentials 1)) "not-a-sheet"
           (pd_DataFrame [normalized yellowstone])
           {[ (0%nat, 0%nat) := PStr "last week" ]}).
  left. eexists. reflexivity.
Defined.

(** ** The fetch stage *)

Lemma filter_prints (P : event -> bool) (t : list event) :
  (forall line, P (Print line) = false) ->
  Forall (fun ev => is_print ev = true) t -> List.filter P t = [].
Proof.
  intros HP. induction 1 as [|ev t Hev _ IH]; [reflexivity|].
  destruct ev; try discriminate Hev. cbn. by rewrite HP.
Qed.

(** Whatever the outside world answers, the fetch stage prints, makes its
    request, and after that only prints. *)
Lemma fetch_parks_data_trace (E : env) (api_key : string) (limit : Z) (w : world) :
  exists rest,
    Forall (fun ev => is_print ev = true) rest
    /\ snd (fetch_parks_data E api_key limit w) =
       mkWorld (trace w
                ++ [Print ("📡 Fetching up to " +:+ str_of_Z limit
                           +:+ " parks from NPS API...");
                    parks_request api_key limit]
                ++ rest) (sheet w).
Proof.
  unfold fetch_parks_data, raise_for_status, parks_request. step_py.
  destruct (requests_get E) as [e|r]; step_py.
  { destruct (isinstance e RequestException); step_py;
      eexists; (split; [|by rewrite <- !app_assoc]); by repeat constructor. }
  destruct ((400 <=? status_code r) && (status_code r <? 500)); step_py.
  { rewrite http_error_is_request_exception. step_py.
    eexists; (split; [|by rewrite <- !app_assoc]); by repeat constructor. }
  destruct ((500 <=? status_code r) && (status_code r <? 600)); step_py.
  { rewrite http_error_is_request_exception. step_py.
    eexists; (split; [|by rewrite <- !app_assoc]); by repeat constructor. }
  destruct (json r) as [e|body]; step_py.
  - destruct (isinstance e RequestException); step_py;
      eexists; (split; [|by rewrite <- !app_assoc]); by repeat constructor.
  - eexists; (split; [|by rewrite <- !app_assoc]); by repeat constructor.
Qed.

Lemma status_passes_tests (r : response) :
  status_passes r ->
  (400 <=? status_code r) && (status_code r <? 500) = false
  /\ (500 <=? status_code r) && (status_code r <? 600) = false.
Proof. unfold status_passes. intros H. split; lia. Qed.

Lemma fetch_parks_data_body (E : env) (api_key : string) (limit : Z) (w : world)
      (r : response) (body : pyval) :
  requests_get E = inr r -> status_passes r -> json r = inr body ->
  fetch_parks_data E api_key limit w =
  (Ret body,
   mkWorld (trace w
            ++ [Print ("📡 Fetching up to " +:+ str_of_Z limit +:+ " parks from NPS API...");
                parks_request api_key limit;
                Print "✅ API request successful!"]) (sheet w)).
Proof.
  intros Hget Hstatus Hjson. destruct (status_passes_tests r Hstatus) as [H4 H5].
  unfold fetch_parks_data, raise_for_status, parks_request. step_py.
  rewrite Hget. step_py. rewrite H4, H5. step_py. rewrite Hjson. step_py.
  by rewrite <- !app_assoc.
Qed.

(** X3. In every run of [fetch_parks_data], whatever the API answers
    and whether the stage returns or raises, exactly one request is made: a
    GET on the parks endpoint with the given key and limit.  There is no
    retry and no second page. *)
Theorem fetch_parks_data_single_request
  (E : env) (api_key : string) (limit : Z) (c0 : cells) :
  List.filter is_network_event (events (run (fetch_parks_data E api_key limit) c0)) =
  [HttpGet "https://developer.nps.gov/api/v1/parks"
           [("api_key", PStr api_key); ("limit", PInt limit)]]
  /\ final_sheet (run (fetch_parks_data E api_key limit) c0) = c0.
Proof.
  destruct (fetch_parks_data_trace E api_key limit (mkWorld [] c0)) as (rest & Hrest & Hrun).
  unfold events, final_sheet, run. rewrite Hrun. cbn [trace sheet app List.filter is_network_event parks_request].
  split; [|reflexivity]. by rewrite (filter_prints is_network_event rest).
Qed.

(** X4. Whenever the status of the response is outside 400..599 and its
    body decodes, [fetch_parks_data] announces success and returns the
    decoded body as it is, whatever it is. *)
Theorem fetch_parks_data_returns_body
  (E : env) (api_key : string) (limit : Z) (c0 : cells) (r : response) (body : pyval) :
  requests_get E = inr r ->
  ~ (400 <= status_code r < 600) ->
  json r = inr body ->
  result (run (fetch_parks_data E api_key limit) c0) = Ret body
  /\ events (run (fetch_parks_data E api_key limit) c0) =
     [Print ("📡 Fetching up to " +:+ str_of_Z limit +:+ " parks from NPS API...");
      HttpGet "https://developer.nps.gov/api/v1/parks"
              [("api_key", PStr api_key); ("limit", PInt limit)];
      Print "✅ API request successful!"].
Proof.
  intros Hget Hstatus Hjson. unfold run.
  rewrite (fetch_parks_data_body E api_key limit _ r body Hget Hstatus Hjson). by split.
Qed.

Lemma fetch_parks_data_returns_body_witness :
  result (run (fetch_parks_data redirecting "demo-key" 50) ∅) = Ret yellowstone_response
  /\ events (run (fetch_parks_data redirecting "demo-key" 50) ∅) =
     [Print ("📡 Fetching up to " +:+ str_of_Z 50 +:+ " parks from NPS API...");
      HttpGet "https://developer.nps.gov/api/v1/parks"
              [("api_key", PStr "demo-key"); ("limit", PInt 50)];
      Print "✅ API request successful!"].
Proof.
  apply (fetch_parks_data_returns_body redirecting "demo-key" 50 ∅ multiple_choices
           yellowstone_response).
  - reflexivity.
  - cbn. lia.
  - reflexivity.
Defined.

Lemma fetch_parks_data_uncaught_run (E : env) (api_key : string) (limit : Z)
      (w : world) (e : exn) :
  isinstance e RequestException = false ->
  requests_get E = inl e
  \/ (exists r, requests_get E = inr r /\ status_passes r /\ json r = inl e) ->
  exists middle,
    (middle = [] \/ middle = [Print "✅ API request successful!"])
    /\ fetch_parks_data E api_key limit w =
       (Raise e,
        mkWorld (trace w
                 ++ [Print ("📡 Fetching up to " +:+ str_of_Z limit
                            +:+ " parks from NPS API...");
                     parks_request api_key limit]
                 ++ middle) (sheet w)).
Proof.
  intros He Hraise. unfold fetch_parks_data, raise_for_status, parks_request. step_py.
  destruct Hraise as [Hget|(r & Hget & Hstatus & Hjson)]; rewrite Hget; step_py.
  - rewrite He. exists []. split; [by left|]. by rewrite <- !app_assoc.
  - destruct (status_passes_tests r Hstatus) as [H4 H5]. rewrite H4, H5. step_py.
    rewrite Hjson. step_py. rewrite He.
    exists [Print "✅ API request successful!"]. split; [by right|].
    by rewrite <- !app_assoc.
Qed.

(** X5. An exception of the request or of the decoding of the body that
    is not a [RequestException] is not caught by [fetch_parks_data]: the
    stage raises it without printing its error message, and [main] then
    makes no call on the spreadsheet. *)
Theorem fetch_parks_data_uncaught
  (E : env) (cfg : config) (to_cells : grid -> grid)
  (api_key : string) (limit : Z) (c0 : cells) (e : exn) :
  isinstance e RequestException = false ->
  requests_get E = inl e
  \/ (exists r, requests_get E = inr r /\ ~ (400 <= status_code r < 600)
                /\ json r = inl e) ->
  result (run (fetch_parks_data E api_key limit) c0) = Raise e
  /\ Forall (fun ev => ev <> Print ("❌ Error fetching data from NPS API: " +:+ exn_msg e))
            (events (run (fetch_parks_data E api_key limit) c0))
  /\ no_sink_call (events (run (main E cfg to_cells) c0))
  /\ final_sheet (run (main E cfg to_cells) c0) = c0.
Proof.
  intros He Hraise. split; [|split].
  - destruct (fetch_parks_data_uncaught_run E api_key limit (mkWorld [] c0) e He Hraise)
      as (middle & _ & Hrun).
    unfold run. by rewrite Hrun.
  - destruct (fetch_parks_data_uncaught_run E api_key limit (mkWorld [] c0) e He Hraise)
      as (middle & Hmiddle & Hrun).
    unfold run, events. rewrite Hrun. cbn [snd trace app parks_request].
    destruct Hmiddle as [->| ->]; repeat constructor; discriminate.
  - destruct (quiet_run (main E cfg to_cells) c0) as [Ht Hs];
      [|split; [by apply no_table_or_sink_no_sink|exact Hs]].
    apply main_quiet_when. intros v parks [w Hw] _ _.
    destruct (fetch_parks_data_uncaught_run E (API_KEY cfg) 50 w e He Hraise)
      as (middle & _ & Hrun).
    rewrite Hrun in Hw. discriminate Hw.
Qed.

Lemma fetch_parks_data_uncaught_witness :
  result (run (fetch_parks_data undecodable "demo-key" 50) ∅)
  = Raise (mkExn JSONDecodeError "Expecting value: line 1 column 1 (char 0)")
  /\ Forall (fun ev => ev <> Print ("❌ Error fetching data from NPS API: "
                                    +:+ exn_msg (mkExn JSONDecodeError
                                                   "Expecting value: line 1 column 1 (char 0)")))
            (events (run (fetch_parks_data undecodable "demo-key" 50) ∅))
  /\ no_sink_call (events (run (main undecodable configured (fun g => g)) ∅))
  /\ final_sheet (run (main undecodable configured (fun g => g)) ∅) = ∅.
Proof.
  apply (fetch_parks_data_uncaught undecodable configured (fun g => g) "demo-key" 50 ∅
           (mkExn JSONDecodeError "Expecting value: line 1 column 1 (char 0)")).
  - reflexivity.
  - right. eexists. split; [reflexivity|]. split; [cbn; lia|reflexivity].
Defined.

(** ** The authentication stage *)

Lemma filled_in_tests (cfg : config) :
  filled_in cfg ->
  String.eqb (API_KEY cfg) "YOUR_API_KEY_HERE" = false
  /\ String.eqb (SHEET_URL cfg) "YOUR_GOOGLE_SHEET_URL_HERE" = false.
Proof. intros [Hkey Hurl]. split; by apply String.eqb_neq. Qed.

Lemma authenticate_google_ok (E : env) (w : world) (creds : credentials) :
  colab_authenticate_user E = None ->
  google_auth_default E = inr creds ->
  gspread_authorize E = None ->
  authenticate_google E w =
  (Ret (mkClient creds),
   mkWorld (trace w
            ++ [Print "🔐 Authenticating with Google...";
                AuthenticateUser; DefaultCredentials; Authorize;
                Print "✅ Google authentication successful!"]) (sheet w)).
Proof.
  intros Huser Hdefault Hauthorize. unfold authenticate_google. step_py.
  rewrite Huser, Hdefault. step_py. rewrite Hauthorize. step_py.
  by rewrite <- !app_assoc.
Qed.

Lemma authenticate_google_fails (E : env) (w : world) (e : exn) :
  auth_failure E = Some e ->
  exists calls,
    Forall (fun ev => is_auth_event ev = true) calls
    /\ authenticate_google E w =
       (Raise e,
        mkWorld (trace w ++ Print "🔐 Authenticating with Google..." :: calls) (sheet w)).
Proof.
  unfold auth_failure, authenticate_google. step_py.
  destruct (colab_authenticate_user E) as [e1|]; step_py.
  { intros [= ->]. exists [AuthenticateUser].
    split; [by repeat constructor|by rewrite <- !app_assoc]. }
  destruct (google_auth_default E) as [e2|creds]; step_py.
  { intros [= ->]. exists [AuthenticateUser; DefaultCredentials].
    split; [by repeat constructor|by rewrite <- !app_assoc]. }
  intros ->. step_py. exists [AuthenticateUser; DefaultCredentials; Authorize].
  split; [by repeat constructor|by rewrite <- !app_assoc].
Qed.

(** X6. When a call of the authentication stage raises,
    [authenticate_google] raises the same exception and skips its success
    message; [main], once configured, lets the exception through and makes
    neither the request nor any call on the spreadsheet. *)
Theorem authentication_failure_propagates
  (E : env) (cfg : config) (to_cells : grid -> grid) (c0 : cells) (e : exn) :
  auth_failure E = Some e ->
  filled_in cfg ->
  result (run (authenticate_google E) c0) = Raise e
  /\ ~ In (Print "✅ Google authentication successful!")
          (events (run (authenticate_google E) c0))
  /\ result (run (main E cfg to_cells) c0) = Raise e
  /\ Forall (fun ev => is_network_event ev = false /\ is_sink_event ev = false)
            (events (run (main E cfg to_cells) c0))
  /\ final_sheet (run (main E cfg to_cells) c0) = c0.
Proof.
  intros Hfail Hcfg. destruct (filled_in_tests cfg Hcfg) as [Hkey Hurl].
  split; [|split].
  - destruct (authenticate_google_fails E (mkWorld [] c0) e Hfail) as (calls & _ & Hrun).
    unfold run. by rewrite Hrun.
  - destruct (authenticate_google_fails E (mkWorld [] c0) e Hfail) as (calls & Hcalls & Hrun).
    unfold run, events. rewrite Hrun. cbn [snd trace app].
    intros [Hin|Hin]; [discriminate Hin|].
    apply list_elem_of_In in Hin. rewrite Forall_forall in Hcalls.
    specialize (Hcalls _ Hin). discriminate Hcalls.
  - unfold main. step_py. rewrite Hkey, Hurl.
    destruct (authenticate_google_fails E
                (mkWorld [Print banner; Print "National Parks Data Collector"; Print banner] c0)
                e Hfail) as (calls & Hcalls & Hrun).
    rewrite Hrun. cbn [fst snd trace sheet app].
    split; [reflexivity|]. split; [|reflexivity].
    repeat (constructor; [by split|]).
    eapply Forall_impl; [exact Hcalls|]. intros ev Hev. by destruct ev.
Qed.

Lemma authentication_failure_propagates_witness :
  result (run (authenticate_google no_credentials) ∅)
  = Raise (mkExn DefaultCredentialsError "Your default credentials were not found.")
  /\ ~ In (Print "✅ Google authentication successful!")
          (events (run (authenticate_google no_credentials) ∅))
  /\ result (run (main no_credentials configured (fun g => g)) ∅)
     = Raise (mkExn DefaultCredentialsError "Your default credentials were not found.")
  /\ Forall (fun ev => is_network_event ev = false /\ is_sink_event ev = false)
            (events (run (main no_credentials configured (fun g => g)) ∅))
  /\ final_sheet (run (main no_credentials configured (fun g => g)) ∅) = ∅.
Proof.
  apply (authentication_failure_propagates no_credentials configured (fun g => g) ∅
           (mkExn DefaultCredentialsError "Your default credentials were not found.")).
  - reflexivity.
  - split; discriminate.
Defined.

(** ** The parser on malformed payloads *)

Lemma park_info_not_dict (park : pyval) :
  is_dict park = false ->
  park_info park =
  Raise (mkExn AttributeError ("'" +:+ type_name park +:+ "' object has no attribute 'get'")).
Proof. by destruct park. Qed.

Lemma parse_loop_app_raise (good : list (gmap string pyval)) (bad : pyval)
      (rest : list pyval) (acc : list park_record) :
  is_dict bad = false ->
  parse_loop (map PDict good ++ bad :: rest) acc =
  Raise (mkExn AttributeError ("'" +:+ type_name bad +:+ "' object has no attribute 'get'")).
Proof.
  intros Hbad. revert acc. induction good as [|d good IH]; intros acc; cbn [map app parse_loop].
  - by rewrite (park_info_not_dict bad Hbad).
  - rewrite park_info_dict. apply IH.
Qed.

Lemma parse_loop_inv (items : list pyval) (acc parks : list park_record) :
  parse_loop items acc = Ret parks ->
  exists sources, items = map PDict sources /\ parks = (acc ++ map normalized sources)%list.
Proof.
  revert acc. induction items as [|park items IH]; intros acc; cbn [parse_loop].
  - intros [= <-]. exists []. by rewrite app_nil_r.
  - destruct park as [| | | | | |d]; try discriminate.
    rewrite park_info_dict. intros Hloop.
    destruct (IH _ Hloop) as (sources & -> & ->).
    exists (d :: sources). by rewrite <- app_assoc.
Qed.

(** X7. One element of ["data"] that is not a JSON object makes
    [parse_parks_data] raise [AttributeError] for that element: no partial
    list is returned and the count is not printed.  The same goes for a
    ["data"] that is null, a boolean or a number, with a [TypeError]. *)
Theorem parse_parks_data_malformed :
  (forall (d : gmap string pyval) (good : list (gmap string pyval)) (bad : pyval)
          (rest : list pyval) (c0 : cells),
     d !! "data" = Some (PList (map PDict good ++ bad :: rest)) ->
     is_dict bad = false ->
     result (run (parse_parks_data (PDict d)) c0) =
     Raise (mkExn AttributeError
                  ("'" +:+ type_name bad +:+ "' object has no attribute 'get'"))
     /\ events (run (parse_parks_data (PDict d)) c0) = [Print "📊 Parsing park data..."])
  /\ (forall (d : gmap string pyval) (data : pyval) (c0 : cells),
        d !! "data" = Some data ->
        is_scalar data = true ->
        result (run (parse_parks_data (PDict d)) c0) =
        Raise (mkExn TypeError ("'" +:+ type_name data +:+ "' object is not iterable"))
        /\ events (run (parse_parks_data (PDict d)) c0) = [Print "📊 Parsing park data..."]).
Proof.
  split.
  - intros d good bad rest c0 Hd Hbad.
    rewrite (parse_parks_data_with_data d _ c0 Hd). cbn [py_iter].
    rewrite (parse_loop_app_raise good bad rest [] Hbad). by split.
  - intros d data c0 Hd Hdata.
    rewrite (parse_parks_data_with_data d _ c0 Hd).
    destruct data; try discriminate Hdata; by split.
Qed.

Lemma parse_parks_data_malformed_witness :
  result (run (parse_parks_data
                 (PDict {[ "data" := PList (map PDict [yellowstone]
                                            ++ PStr "Zion" :: [PDict yellowstone]) ]})) ∅) =
  Raise (mkExn AttributeError
               ("'" +:+ type_name (PStr "Zion") +:+ "' object has no attribute 'get'"))
  /\ events (run (parse_parks_data
                    (PDict {[ "data" := PList (map PDict [yellowstone]
                                               ++ PStr "Zion" :: [PDict yellowstone]) ]})) ∅)
     = [Print "📊 Parsing park data..."].
Proof.
  apply (proj1 parse_parks_data_malformed
           {[ "data" := PList (map PDict [yellowstone] ++ PStr "Zion" :: [PDict yellowstone]) ]}
           [yellowstone] (PStr "Zion") [PDict yellowstone] ∅);
    reflexivity.
Defined.

Lemma py_iter_dicts (data : pyval) (sources : list (gmap string pyval)) :
  py_iter data = Ret (map PDict sources) ->
  data = PList (map PDict sources)
  \/ (sources = [] /\ (data = PStr EmptyString \/ data = PDict ∅)).
Proof.
  destruct data as [| | | |s|l|d]; cbn [py_iter]; try discriminate.
  - destruct s as [|c s]; cbn; destruct sources; try discriminate. intros _. right. eauto.
  - intros [= ->]. by left.
  - destruct (map_to_list d) as [|[k v] kvs] eqn:Hd; cbn; destruct sources; try discriminate.
    apply map_to_list_empty_iff in Hd as ->. intros _. right. eauto.
Qed.

Lemma parse_parks_data_Some_inv (api_response : pyval) (w : world)
      (parks : list park_record) :
  fst (parse_parks_data api_response w) = Ret (Some parks) ->
  exists (d : gmap string pyval) (data : pyval) (sources : list (gmap string pyval)),
    api_response = PDict d
    /\ d !! "data" = Some data
    /\ parks = map normalized sources
    /\ (data = PList (map PDict sources)
        \/ (sources = [] /\ (data = PStr EmptyString \/ data = PDict ∅))).
Proof.
  unfold parse_parks_data. step_py.
  destruct (truthy api_response); cbn [negb fst]; [|discriminate].
  destruct api_response as [| | | |s|l|d]; cbn [py_contains]; step_py; try discriminate.
  - destruct (is_substring "data" s); step_py; discriminate.
  - destruct (existsb _ l); step_py; discriminate.
  - cbn [py_getitem]. destruct (d !! "data") as [data|] eqn:Hd.
    2:{ rewrite bool_decide_eq_false_2 by (by intros [? ?]). step_py. discriminate. }
    rewrite bool_decide_eq_true_2 by eauto. step_py.
    destruct (py_iter data) as [items|e] eqn:Hiter; step_py; [|discriminate].
    destruct (parse_loop items []) as [parks'|e] eqn:Hloop; step_py; [|discriminate].
    intros [= <-]. destruct (parse_loop_inv _ _ _ Hloop) as (sources & -> & ->).
    exists d, data, sources. split; [done|]. split; [done|]. split; [done|].
    by apply py_iter_dicts.
Qed.

(** X8. [parse_parks_data] returns a list of records only for a JSON
    object that has the ["data"] key: the records are then the normalized
    elements of ["data"], a list of JSON objects (or there is none, when
    ["data"] is an empty string or an empty object).  A top-level array,
    string or number never yields records. *)
Theorem parse_parks_data_records_origin
  (api_response : pyval) (c0 : cells) (parks : list park_record) :
  result (run (parse_parks_data api_response) c0) = Ret (Some parks) ->
  exists (d : gmap string pyval) (data : pyval) (sources : list (gmap string pyval)),
    api_response = PDict d
    /\ d !! "data" = Some data
    /\ parks = map normalized sources
    /\ (data = PList (map PDict sources)
        \/ (sources = [] /\ (data = PStr EmptyString \/ data = PDict ∅))).
Proof. apply parse_parks_data_Some_inv. Qed.

Lemma parse_parks_data_records_origin_witness :
  exists (d : gmap string pyval) (data : pyval) (sources : list (gmap string pyval)),
    yellowstone_response = PDict d
    /\ d !! "data" = Some data
    /\ [normalized yellowstone] = map normalized sources
    /\ (data = PList (map PDict sources)
        \/ (sources = [] /\ (data = PStr EmptyString \/ data = PDict ∅))).
Proof.
  apply (parse_parks_data_records_origin yellowstone_response ∅ [normalized yellowstone]).
  reflexivity.
Defined.

(** ** What [main] needs before it touches the sheet *)

(** X9. Unless the API answers with an object whose ["data"] is a
    non-empty list of JSON objects, [main] reaches neither the table stage
    nor the sink stage, whatever else happens in the run: the sheet is
    neither opened nor cleared nor written. *)
Theorem main_needs_records
  (E : env) (cfg : config) (to_cells : grid -> grid) (c0 : cells) :
  (forall r d sources,
     requests_get E = inr r -> json r = inr (PDict d) ->
     d !! "data" = Some (PList (map PDict sources)) -> sources = []) ->
  no_sink_call (events (run (main E cfg to_cells) c0))
  /\ ~ In (Print "📋 Creating DataFrame...") (events (run (main E cfg to_cells) c0))
  /\ final_sheet (run (main E cfg to_cells) c0) = c0.
Proof.
  intros Hnone.
  destruct (quiet_run (main E cfg to_cells) c0) as [Ht Hs].
  - apply main_quiet_when. intros v parks Hv Hv' [w Hw].
    destruct parks as [[|p ps]|]; try reflexivity.
    destruct (parse_parks_data_Some_inv _ _ _ Hw) as (d & data & sources & -> & Hd & Hparks & Hdata).
    destruct (fetch_parks_data_returns _ _ _ _ Hv) as [[=]|(r & Hget & Hjson & _)].
    destruct Hdata as [->|[-> _]]; [|discriminate Hparks].
    rewrite (Hnone r d sources Hget Hjson Hd) in Hparks. discriminate Hparks.
  - split; [by apply no_table_or_sink_no_sink|].
    split; [by apply no_table_or_sink_no_table|exact Hs].
Qed.

Lemma main_needs_records_witness :
  no_sink_call (events (run (main (serving (PDict {[ "data" := PList [PStr "Zion"] ]}))
                                  configured (fun g => g)) ∅))
  /\ ~ In (Print "📋 Creating DataFrame...")
          (events (run (main (serving (PDict {[ "data" := PList [PStr "Zion"] ]}))
                             configured (fun g => g)) ∅))
  /\ final_sheet (run (main (serving (PDict {[ "data" := PList [PStr "Zion"] ]}))
                            configured (fun g => g)) ∅) = ∅.
Proof.
  apply (main_needs_records (serving (PDict {[ "data" := PList [PStr "Zion"] ]}))
           configured (fun g => g) ∅).
  intros r d sources [= <-] [= <-] Hd. vm_compute in Hd.
  destruct sources as [|source sources]; [reflexivity|discriminate Hd].
Defined.

(** ** Stages that add no event of a given kind *)

Section Silent.

Variable P : event -> bool.

Lemma silent_ret {A} (a : A) : silent P (ret a).
Proof. by intros w. Qed.

Lemma silent_raise {A} (e : exn) : silent P (@raise A e).
Proof. by intros w. Qed.

Lemma silent_lift {A} (o : outcome A) : silent P (lift o).
Proof. by intros w. Qed.

Lemma silent_set_sheet (c : cells) : silent P (set_sheet c).
Proof. by intros w. Qed.

Lemma silent_get_sheet : silent P get_sheet.
Proof. by intros w. Qed.

Lemma silent_emit (ev : event) : P ev = false -> silent P (emit ev).
Proof.
  intros Hev w. cbn. rewrite List.filter_app. cbn. rewrite Hev. apply app_nil_r.
Qed.

Lemma silent_print (line : string) : P (Print line) = false -> silent P (print line).
Proof. apply silent_emit. Qed.

Lemma silent_bind {A B} (m : M A) (k : A -> M B) :
  silent P m -> (forall a, returns m a -> silent P (k a)) -> silent P (bind m k).
Proof.
  intros Hm Hk w. unfold bind. specialize (Hm w).
  destruct (m w) as [[a|e] w'] eqn:Hrun; cbn [snd] in *; [|exact Hm].
  rewrite <- Hm. apply Hk. exists w. by rewrite Hrun.
Qed.

Lemma silent_try_except {A} (body : M A) (cls : exn_class) (handler : exn -> M A) :
  silent P body -> (forall e, silent P (handler e)) -> silent P (try_except body cls handler).
Proof.
  intros Hbody Hhandler w. unfold try_except. specialize (Hbody w).
  destruct (body w) as [[a|e] w'] eqn:Hrun; cbn [snd] in *; [exact Hbody|].
  destruct (isinstance e cls); [|exact Hbody].
  rewrite <- Hbody. apply Hhandler.
Qed.

Lemma silent_call {A} (ev : event) (answer : exn + A) :
  P ev = false -> silent P (call ev answer).
Proof.
  intros Hev. unfold call. apply silent_bind; [by apply silent_emit|].
  intros _ _. destruct answer; [apply silent_raise|apply silent_ret].
Qed.

End Silent.

Ltac silent_steps :=
  repeat lazymatch goal with
    | |- silent _ (ret _) => apply silent_ret
    | |- silent _ (raise _) => apply silent_raise
    | |- silent _ (lift _) => apply silent_lift
    | |- silent _ (set_sheet _) => apply silent_set_sheet
    | |- silent _ get_sheet => apply silent_get_sheet
    | |- silent _ (print _) => apply silent_print; reflexivity
    | |- silent _ (call _ _) => apply silent_call; reflexivity
    | |- silent _ (try_except _ _ _) => apply silent_try_except; [|intros ?]
    | |- silent _ (bind _ _) => apply silent_bind; [|intros ? _]
    | |- silent _ (if ?b then _ else _) => destruct b
    | |- silent _ (match ?o with Some _ => _ | None => _ end) => destruct o
    end.

Lemma authenticate_google_no_request (E : env) :
  silent is_network_event (authenticate_google E).
Proof. unfold authenticate_google. silent_steps. Qed.

Lemma parse_parks_data_no_request (api_response : pyval) :
  silent is_network_event (parse_parks_data api_response).
Proof. unfold parse_parks_data. silent_steps. Qed.

Lemma create_dataframe_no_request (parks_list : option (list park_record)) :
  silent is_network_event (create_dataframe parks_list).
Proof.
  unfold create_dataframe. apply silent_bind; [silent_steps|intros _ _].
  destruct parks_list as [[|p ps]|]; cbv zeta; silent_steps.
Qed.

Lemma write_to_google_sheet_no_request (E : env) (to_cells : grid -> grid) (gc : client)
      (sheet_url : string) (df : DataFrame) :
  silent is_network_event (write_to_google_sheet E to_cells gc sheet_url df).
Proof.
  unfold write_to_google_sheet, clear_worksheet, update_worksheet. silent_steps.
Qed.

Lemma fetch_parks_data_one_request (E : env) (api_key : string) (limit : Z) (w : world) :
  List.filter is_network_event (trace (snd (fetch_parks_data E api_key limit w))) =
  (List.filter is_network_event (trace w) ++ [parks_request api_key limit])%list.
Proof.
  destruct (fetch_parks_data_trace E api_key limit w) as (rest & Hrest & ->).
  cbn [trace]. rewrite !List.filter_app.
  rewrite (filter_prints is_network_event rest) by done.
  cbn. by rewrite ?app_nil_r.
Qed.

(** X10. In every run, whatever the outside world answers, [main] makes
    at most one request to the API, and this request carries the configured
    key and the limit 50. *)
Theorem main_single_request
  (E : env) (cfg : config) (to_cells : grid -> grid) (c0 : cells) :
  List.filter is_network_event (events (run (main E cfg to_cells) c0)) = []
  \/ List.filter is_network_event (events (run (main E cfg to_cells) c0)) =
     [HttpGet "https://developer.nps.gov/api/v1/parks"
              [("api_key", PStr (API_KEY cfg)); ("limit", PInt 50)]].
Proof.
  unfold events, run, main. step_py.
  destruct (String.eqb (API_KEY cfg) _); [by left|].
  destruct (String.eqb (SHEET_URL cfg) _); [by left|].
  match goal with |- context [authenticate_google E ?w] =>
    pose proof (authenticate_google_no_request E w) as Hauth;
    destruct (authenticate_google E w) as [[gc|e] w1]
  end; cbn [snd trace List.filter is_network_event is_print] in Hauth; [|by left].
  cbn [truthy_client negb].
  pose proof (fetch_parks_data_one_request E (API_KEY cfg) 50 w1) as Hfetch.
  rewrite Hauth in Hfetch. cbn [app] in Hfetch. unfold parks_request in Hfetch.
  destruct (fetch_parks_data E (API_KEY cfg) 50 w1) as [[v|e] w2];
    cbn [snd] in Hfetch; [|by right].
  right. rewrite <- Hfetch.
  assert (Hrest : forall (rest : M unit), silent is_network_event rest ->
            List.filter is_network_event (trace (snd (rest w2)))
            = List.filter is_network_event (trace w2)) by (intros rest Hr; apply Hr).
  match goal with |- List.filter _ (trace (snd (?rest w2))) = _ => apply (Hrest rest) end.
  destruct (truthy v); cbn [negb]; [|apply silent_ret].
  apply silent_bind; [apply parse_parks_data_no_request|intros parks _].
  destruct (truthy_parks parks); cbn [negb]; [|apply silent_ret].
  apply silent_bind; [apply create_dataframe_no_request|intros [df|] _]; [|apply silent_ret].
  apply silent_bind; [apply write_to_google_sheet_no_request|intros success _].
  intros w'. destruct success; cbn [snd trace];
    rewrite !List.filter_app; cbn; by rewrite !app_nil_r.
Qed.

(** ** Complete runs *)

Lemma parse_parks_data_dicts_run (d : gmap string pyval)
      (sources : list (gmap string pyval)) (w : world) :
  d !! "data" = Some (PList (map PDict sources)) ->
  parse_parks_data (PDict d) w =
  (Ret (Some (map normalized sources)),
   mkWorld (trace w
            ++ [Print "📊 Parsing park data...";
                Print ("✅ Parsed " +:+ str_of_nat (length sources)
                       +:+ " parks successfully!")]) (sheet w)).
Proof.
  intros Hd. unfold parse_parks_data. step_py.
  rewrite (dict_with_key_truthy d "data" _ Hd). cbn [negb py_contains py_getitem].
  rewrite Hd, bool_decide_eq_true_2 by eauto. step_py. cbn [py_iter].
  rewrite parse_loop_dicts. cbn [app]. by rewrite length_map, <- !app_assoc.
Qed.

Lemma normalized_keys (sources : list (gmap string pyval)) :
  Forall (fun r => record_keys r = park_fields) (map normalized sources).
Proof. apply Forall_map. by apply Forall_true. Qed.

Lemma create_dataframe_records_run (sources : list (gmap string pyval)) (w : world) :
  sources <> [] ->
  create_dataframe (Some (map normalized sources)) w =
  (Ret (Some (pd_DataFrame (map normalized sources))),
   mkWorld (trace w
            ++ [Print "📋 Creating DataFrame...";
                Print ("✅ DataFrame created with " +:+ str_of_nat (length sources)
                       +:+ " rows and " +:+ str_of_nat 5 +:+ " columns")]) (sheet w)).
Proof.
  intros Hne.
  assert (Hcols : frame_columns (map normalized sources) = park_fields).
  { apply frame_columns_fields; [by destruct sources|apply normalized_keys]. }
  unfold create_dataframe. destruct sources as [|source sources]; [done|].
  cbn [map]. cbv zeta. step_py.
  unfold pd_DataFrame. cbn [df_rows df_columns]. cbn [map] in Hcols. rewrite Hcols.
  unfold frame_rows. rewrite !length_map. cbn [length]. rewrite !length_map.
  by rewrite <- !app_assoc.
Qed.

(** A configured run in which authentication and fetch succeed and the API
    delivers at least one park arrives at the sink stage. *)
Lemma main_reaches_sink (E : env) (cfg : config) (to_cells : grid -> grid) (c0 : cells)
      (creds : credentials) (sources : list (gmap string pyval)) :
  filled_in cfg -> delivers E creds sources -> sources <> [] ->
  main E cfg to_cells (mkWorld [] c0) =
  bind (write_to_google_sheet E to_cells (mkClient creds) (SHEET_URL cfg)
          (pd_DataFrame (map normalized sources)))
       closing
       (mkWorld (before_sink cfg (length sources)) c0).
Proof.
  intros Hcfg (Huser & Hdefault & Hauthorize & r & d & Hget & Hstatus & Hjson & Hd) Hne.
  destruct (filled_in_tests cfg Hcfg) as [Hkey Hurl].
  unfold main, closing, before_sink. step_py. rewrite Hkey, Hurl.
  rewrite (authenticate_google_ok E _ creds Huser Hdefault Hauthorize).
  cbn [truthy_client negb trace sheet app].
  rewrite (fetch_parks_data_body E (API_KEY cfg) 50 _ r (PDict d) Hget Hstatus Hjson).
  rewrite (dict_with_key_truthy d "data" _ Hd). cbn [negb trace sheet app].
  rewrite (parse_parks_data_dicts_run d sources _ Hd).
  assert (Htruthy : truthy_parks (Some (map normalized sources)) = true)
    by (by destruct sources).
  rewrite Htruthy. cbn [negb trace sheet app].
  rewrite (create_dataframe_records_run sources _ Hne). cbn [trace sheet app].
  reflexivity.
Qed.

Lemma sheet_grid_parks (to_cells : grid -> grid) (sources : list (gmap string pyval)) :
  sources <> [] ->
  sheet_grid to_cells (pd_DataFrame (map normalized sources)) = parks_grid to_cells sources.
Proof.
  intros Hne. unfold sheet_grid, columns_tolist, values_tolist, pd_DataFrame, parks_grid.
  cbn [df_columns df_rows app].
  rewrite frame_columns_fields; [|by destruct sources|apply normalized_keys].
  rewrite frame_rows_values by apply normalized_keys.
  by rewrite map_map.
Qed.

Lemma write_to_google_sheet_ok_run (E : env) (to_cells : grid -> grid) (gc : client)
      (sheet_url : string) (df : DataFrame) (w : world) :
  sink_accepts E ->
  write_to_google_sheet E to_cells gc sheet_url df w =
  (Ret true,
   mkWorld (trace w
            ++ [Print "📝 Writing data to Google Sheet...";
                OpenByUrl sheet_url; GetWorksheet 0; Clear; Update (sheet_grid to_cells df);
                Print ("✅ Successfully wrote " +:+ str_of_nat (length (df_rows df))
                       +:+ " parks to Google Sheet!");
                Print ("🔗 View your data: " +:+ sheet_url)])
           (write_rows 0 (sheet_grid to_cells df) ∅)).
Proof.
  intros (Hopen & [ws Hws] & Hclear & Hupdate).
  unfold write_to_google_sheet, clear_worksheet, update_worksheet. step_py.
  rewrite Hopen, Hws. step_py. rewrite Hclear. step_py. rewrite Hupdate. step_py.
  by rewrite <- !app_assoc.
Qed.

Lemma write_to_google_sheet_fails_run (E : env) (to_cells : grid -> grid) (gc : client)
      (sheet_url : string) (df : DataFrame) (w : world) (e : exn) :
  sink_failure E = Some e ->
  isinstance e Exception = true ->
  exists calls c,
    Forall (fun ev => is_sink_event ev = true) calls
    /\ write_to_google_sheet E to_cells gc sheet_url df w =
       (Ret false,
        mkWorld (trace w
                 ++ Print "📝 Writing data to Google Sheet..." :: calls
                 ++ [Print ("❌ Error writing to Google Sheet: " +:+ exn_msg e)]) c).
Proof.
  intros Hfail He. revert Hfail.
  unfold sink_failure, write_to_google_sheet, clear_worksheet, update_worksheet. step_py.
  destruct (client_open_by_url E) as [e1|]; step_py.
  { intros [= ->]. rewrite He. step_py. exists [OpenByUrl sheet_url], (sheet w).
    split; [by repeat constructor|by rewrite <- !app_assoc]. }
  destruct (spreadsheet_get_worksheet E) as [e2|[ws|]]; step_py.
  { intros [= ->]. rewrite He. step_py.
    exists [OpenByUrl sheet_url; GetWorksheet 0], (sheet w).
    split; [by repeat constructor|by rewrite <- !app_assoc]. }
  2:{ intros [= <-]. cbn. exists [OpenByUrl sheet_url; GetWorksheet 0], (sheet w).
      split; [by repeat constructor|by rewrite <- !app_assoc]. }
  destruct (worksheet_clear E) as [e3|]; step_py.
  { intros [= ->]. rewrite He. step_py.
    exists [OpenByUrl sheet_url; GetWorksheet 0; Clear], (sheet w).
    split; [by repeat constructor|by rewrite <- !app_assoc]. }
  intros ->. step_py. rewrite He. step_py.
  exists [OpenByUrl sheet_url; GetWorksheet 0; Clear; Update (sheet_grid to_cells df)], ∅.
  split; [by repeat constructor|by rewrite <- !app_assoc].
Qed.

Lemma grid_cell_header (row : list pyval) (g : grid) (j : nat) :
  grid_cell (row :: g) 0 j = row !! j.
Proof. reflexivity. Qed.

Lemma grid_cell_below (row : list pyval) (g : grid) (i j : nat) :
  grid_cell (row :: g) (S i) j = grid_cell g i j.
Proof. reflexivity. Qed.

Lemma normalized_value_at (source : gmap string pyval) (j : nat) (key : string) :
  park_fields !! j = Some key ->
  record_values (normalized source) !! j = Some (default (PStr "N/A") (source !! key)).
Proof.
  intros Hj. unfold record_values, normalized. rewrite map_map. cbn [snd].
  by rewrite list_lookup_fmap, Hj.
Qed.

(** X11. A configured run in which authentication, fetch and every call
    on the spreadsheet succeed, and in which the API delivers N >= 1 JSON
    objects under ["data"], returns normally and ends on the closing banner
    after announcing success.  Its only calls on the spreadsheet are: open
    the configured URL, take worksheet 0, clear, update with the header row
    followed by N rows.  Afterwards the sheet holds exactly this grid and
    nothing of what it held before: row 0 is the header, and row [i + 1],
    column [j] is the value of the field that the header names in column
    [j] for the [i]-th object, or ["N/A"], as the read-back of pandas
    renders it. *)
Theorem main_success
  (E : env) (cfg : config) (to_cells : grid -> grid) (cell : nat -> pyval -> pyval)
  (c0 : cells) (creds : credentials) (sources : list (gmap string pyval)) :
  filled_in cfg ->
  delivers E creds sources ->
  sources <> [] ->
  sink_accepts E ->
  cellwise to_cells cell ->
  result (run (main E cfg to_cells) c0) = Ret tt
  /\ List.filter is_sink_event (events (run (main E cfg to_cells) c0)) =
     [OpenByUrl (SHEET_URL cfg); GetWorksheet 0; Clear;
      Update (map PStr park_fields
              :: map (fun source => imap cell (record_values (normalized source))) sources)]
  /\ length (map PStr park_fields
             :: map (fun source => imap cell (record_values (normalized source))) sources)
     = S (length sources)
  /\ In (Print "✅ ALL DONE! Your National Parks data is now in Google Sheets!")
        (events (run (main E cfg to_cells) c0))
  /\ last (events (run (main E cfg to_cells) c0)) = Some (Print banner)
  /\ (forall i j : nat,
        final_sheet (run (main E cfg to_cells) c0) !! (i, j) =
        grid_cell (map PStr park_fields
                   :: map (fun source => imap cell (record_values (normalized source))) sources)
                  i j)
  /\ (forall (j : nat) (key : string),
        park_fields !! j = Some key ->
        final_sheet (run (main E cfg to_cells) c0) !! (0%nat, j) = Some (PStr key))
  /\ (forall (i : nat) (source : gmap string pyval) (j : nat) (key : string),
        sources !! i = Some source ->
        park_fields !! j = Some key ->
        final_sheet (run (main E cfg to_cells) c0) !! (S i, j) =
        Some (cell j (default (PStr "N/A") (source !! key)))).
Proof.
  intros Hcfg Hdelivers Hne Hsink Hcell. unfold run.
  rewrite (main_reaches_sink E cfg to_cells c0 creds sources Hcfg Hdelivers Hne).
  unfold bind. rewrite (write_to_google_sheet_ok_run _ _ _ _ _ _ Hsink).
  rewrite (sheet_grid_parks to_cells sources Hne).
  replace (parks_grid to_cells sources)
    with (map PStr park_fields
          :: map (fun source => imap cell (record_values (normalized source))) sources)
    by (unfold parks_grid; by rewrite Hcell, map_map).
  unfold closing, before_sink, parks_request. step_py.
  split; [reflexivity|]. split; [reflexivity|].
  split; [by cbn [length]; rewrite length_map|]. split.
  { cbn [In]. repeat (first [left; reflexivity|right]). }
  split; [reflexivity|].
  split; [intros i j; apply write_rows_empty|]. split.
  - intros j key Hj. rewrite write_rows_empty, grid_cell_header.
    by rewrite list_lookup_fmap, Hj.
  - intros i source j key Hi Hj. rewrite write_rows_empty, grid_cell_below.
    unfold grid_cell. rewrite list_lookup_fmap, Hi. cbn [fmap option_fmap option_map].
    by rewrite list_lookup_imap, (normalized_value_at source j key Hj).
Qed.

Lemma main_success_witness :
  result (run (main (serving (PDict {[ "data" := PList (map PDict [yellowstone]) ]}))
                    configured (map (imap (fun _ v => v))))
              {[ (9%nat, 9%nat) := PStr "last week" ]}) = Ret tt
  /\ List.filter is_sink_event
       (events (run (main (serving (PDict {[ "data" := PList (map PDict [yellowstone]) ]}))
                          configured (map (imap (fun _ v => v))))
                    {[ (9%nat, 9%nat) := PStr "last week" ]})) =
     [OpenByUrl (SHEET_URL configured); GetWorksheet 0; Clear;
      Update (map PStr park_fields
              :: map (fun source => imap (fun _ v => v) (record_values (normalized source)))
                     [yellowstone])]
  /\ length (map PStr park_fields
             :: map (fun source => imap (fun _ v => v) (record_values (normalized source)))
                    [yellowstone])
     = S (length [yellowstone])
  /\ In (Print "✅ ALL DONE! Your National Parks data is now in Google Sheets!")
        (events (run (main (serving (PDict {[ "data" := PList (map PDict [yellowstone]) ]}))
                           configured (map (imap (fun _ v => v))))
                     {[ (9%nat, 9%nat) := PStr "last week" ]}))
  /\ last (events (run (main (serving (PDict {[ "data" := PList (map PDict [yellowstone]) ]}))
                             configured (map (imap (fun _ v => v))))
                       {[ (9%nat, 9%nat) := PStr "last week" ]}))
     = Some (Print banner)
  /\ (forall i j : nat,
        final_sheet (run (main (serving (PDict {[ "data" := PList (map PDict [yellowstone]) ]}))
                               configured (map (imap (fun _ v => v))))
                         {[ (9%nat, 9%nat) := PStr "last week" ]}) !! (i, j) =
        grid_cell (map PStr park_fields
                   :: map (fun source => imap (fun _ v => v) (record_values (normalized source)))
                          [yellowstone])
                  i j)
  /\ (forall (j : nat) (key : string),
        park_fields !! j = Some key ->
        final_sheet (run (main (serving (PDict {[ "data" := PList (map PDict [yellowstone]) ]}))
                               configured (map (imap (fun _ v => v))))
                         {[ (9%nat, 9%nat) := PStr "last week" ]}) !! (0%nat, j)
        = Some (PStr key))
  /\ (forall (i : nat) (source : gmap string pyval) (j : nat) (key : string),
        [yellowstone] !! i = Some source ->
        park_fields !! j = Some key ->
        final_sheet (run (main (serving (PDict {[ "data" := PList (map PDict [yellowstone]) ]}))
                               configured (map (imap (fun _ v => v))))
                         {[ (9%nat, 9%nat) := PStr "last week" ]}) !! (S i, j) =
        Some (default (PStr "N/A") (source !! key))).
Proof.
  apply (main_success (serving (PDict {[ "data" := PList (map PDict [yellowstone]) ]}))
           configured (map (imap (fun _ v => v))) (fun _ v => v)
           {[ (9%nat, 9%nat) := PStr "last week" ]}
           (mkCredentials 1) [yellowstone]).
  - split; discriminate.
  - repeat split. eexists _, _. split; [reflexivity|].
    split; [unfold status_passes; cbn; lia|]. split; reflexivity.
  - discriminate.
  - repeat split. by exists (mkWorksheet 0).
  - intros m. reflexivity.
Defined.

(** X12. When such a run reaches the sink stage and a call on the
    spreadsheet raises an [Exception], [main] still returns normally: it
    prints the error of the sink stage and the "completed with errors"
    message, never the success message, and ends on the closing banner. *)
Theorem main_write_failure
  (E : env) (cfg : config) (to_cells : grid -> grid) (c0 : cells)
  (creds : credentials) (sources : list (gmap string pyval)) (e : exn) :
  filled_in cfg ->
  delivers E creds sources ->
  sources <> [] ->
  sink_failure E = Some e ->
  isinstance e Exception = true ->
  result (run (main E cfg to_cells) c0) = Ret tt
  /\ In (Print ("❌ Error writing to Google Sheet: " +:+ exn_msg e))
        (events (run (main E cfg to_cells) c0))
  /\ In (Print "❌ Process completed with errors. Please check the messages above.")
        (events (run (main E cfg to_cells) c0))
  /\ ~ In (Print "✅ ALL DONE! Your National Parks data is now in Google Sheets!")
          (events (run (main E cfg to_cells) c0))
  /\ last (events (run (main E cfg to_cells) c0)) = Some (Print banner).
Proof.
  intros Hcfg Hdelivers Hne Hfail He. unfold run.
  rewrite (main_reaches_sink E cfg to_cells c0 creds sources Hcfg Hdelivers Hne).
  unfold bind.
  destruct (write_to_google_sheet_fails_run E to_cells (mkClient creds) (SHEET_URL cfg)
              (pd_DataFrame (map normalized sources))
              (mkWorld (before_sink cfg (length sources)) c0) e Hfail He)
    as (calls & c & Hcalls & ->).
  unfold closing, bind, print, emit, events, result. cbn [trace sheet fst snd].
  split; [reflexivity|].
  split; [|split; [|split]].
  - repeat (rewrite in_app_iff || cbn [In]). intuition reflexivity.
  - repeat (rewrite in_app_iff || cbn [In]). intuition reflexivity.
  - repeat (rewrite in_app_iff || cbn [In]). intros H.
    repeat match goal with H : _ \/ _ |- _ => destruct H as [H|H] end;
      try discriminate H; try contradiction.
    + unfold before_sink, parks_request in H. cbn [In] in H.
      repeat (destruct H as [H|H]; [discriminate H|]). done.
    + apply list_elem_of_In in H. rewrite Forall_forall in Hcalls.
      specialize (Hcalls _ H). discriminate Hcalls.
  - apply last_snoc.
Qed.

Lemma main_write_failure_witness :
  result (run (main serving_unwritable configured (fun g => g)) ∅) = Ret tt
  /\ In (Print ("❌ Error writing to Google Sheet: "
                +:+ exn_msg (mkExn APIError "quota exceeded")))
        (events (run (main serving_unwritable configured (fun g => g)) ∅))
  /\ In (Print "❌ Process completed with errors. Please check the messages above.")
        (events (run (main serving_unwritable configured (fun g => g)) ∅))
  /\ ~ In (Print "✅ ALL DONE! Your National Parks data is now in Google Sheets!")
          (events (run (main serving_unwritable configured (fun g => g)) ∅))
  /\ last (events (run (main serving_unwritable configured (fun g => g)) ∅))
     = Some (Print banner).
Proof.
  apply (main_write_failure serving_unwritable configured (fun g => g) ∅
           (mkCredentials 1) [yellowstone] (mkExn APIError "quota exceeded")).
  - split; discriminate.
  - repeat split. eexists _, _. split; [reflexivity|].
    split; [unfold status_passes; cbn; lia|]. split; reflexivity.
  - discriminate.
  - reflexivity.
  - reflexivity.
Defined.

(** ** The table stage *)

Lemma silent_raise_for_status (P : event -> bool) (r : response) :
  silent P (raise_for_status r).
Proof.
  unfold raise_for_status.
  repeat match goal with |- context [if ?b then _ else _] => destruct b end;
    first [apply silent_raise | apply silent_ret].
Qed.

Lemma silent_no_event (P : event -> bool) {A} (m : M A) (c0 : cells) (ev : event) :
  silent P m -> P ev = true -> ~ In ev (events (run m c0)).
Proof.
  intros Hm Hev Hin. specialize (Hm (mkWorld [] c0)). cbn [trace List.filter] in Hm.
  assert (Hfilter : In ev (List.filter P (events (run m c0))))
    by (apply List.filter_In; by split).
  unfold events, run in Hfilter. rewrite Hm in Hfilter. destruct Hfilter.
Qed.

Lemma main_no_empty_table (E : env) (cfg : config) (to_cells : grid -> grid) :
  silent is_empty_table_message (main E cfg to_cells).
Proof.
  unfold main.
  do 3 (apply silent_bind; [by apply silent_print|intros _ _]).
  destruct (String.eqb (API_KEY cfg) _); [by apply silent_print|].
  destruct (String.eqb (SHEET_URL cfg) _); [by apply silent_print|].
  apply silent_bind; [unfold authenticate_google; silent_steps|intros gc _].
  cbn [truthy_client negb].
  apply silent_bind.
  { unfold fetch_parks_data. cbv zeta.
    apply silent_bind; [silent_steps|intros _ _].
    apply silent_try_except; [|intros e; silent_steps].
    apply silent_bind; [silent_steps|intros r _].
    apply silent_bind; [apply silent_raise_for_status|intros _ _]. silent_steps. }
  intros v _. destruct (truthy v); cbn [negb]; [|apply silent_ret].
  apply silent_bind; [unfold parse_parks_data; silent_steps|intros parks _].
  destruct (truthy_parks parks) eqn:Hparks; cbn [negb]; [|apply silent_ret].
  apply silent_bind.
  { unfold create_dataframe. apply silent_bind; [silent_steps|intros _ _].
    destruct parks as [[|p ps]|]; try discriminate Hparks. cbv zeta. silent_steps. }
  intros [df|] _; [|apply silent_ret].
  apply silent_bind.
  { unfold write_to_google_sheet, clear_worksheet, update_worksheet. silent_steps. }
  intros success _. silent_steps.
Qed.

(** X13. [create_dataframe] builds no frame from [None] or from an empty
    list: it prints that there is no parks data and returns [None].  From a
    non-empty list it returns the frame of these records, with one row per
    record, and prints the numbers of rows and columns.  In [main] the
    first case never arises: no run prints the no-parks-data message. *)
Theorem create_dataframe_empty_input :
  (forall (parks_list : option (list park_record)) (c0 : cells),
     truthy_parks parks_list = false ->
     result (run (create_dataframe parks_list) c0) = Ret None
     /\ events (run (create_dataframe parks_list) c0) =
        [Print "📋 Creating DataFrame..."; Print "❌ No parks data to create DataFrame"])
  /\ (forall (records : list park_record) (c0 : cells),
        records <> [] ->
        result (run (create_dataframe (Some records)) c0) = Ret (Some (pd_DataFrame records))
        /\ length (df_rows (pd_DataFrame records)) = length records
        /\ events (run (create_dataframe (Some records)) c0) =
           [Print "📋 Creating DataFrame...";
            Print ("✅ DataFrame created with " +:+ str_of_nat (length records)
                   +:+ " rows and "
                   +:+ str_of_nat (length (df_columns (pd_DataFrame records)))
                   +:+ " columns")])
  /\ (forall (E : env) (cfg : config) (to_cells : grid -> grid) (c0 : cells),
        ~ In (Print "❌ No parks data to create DataFrame")
             (events (run (main E cfg to_cells) c0))).
Proof.
  split; [|split].
  - intros parks_list c0 Hfalsy.
    destruct parks_list as [[|p ps]|]; try discriminate Hfalsy; by split.
  - intros records c0 Hne. destruct records as [|r records]; [done|].
    assert (Hlen : length (df_rows (pd_DataFrame (r :: records))) = length (r :: records))
      by (unfold pd_DataFrame, frame_rows; cbn [df_rows]; apply length_map).
    split; [reflexivity|]. split; [exact Hlen|].
    unfold create_dataframe, run, events. cbv zeta. step_py. by rewrite Hlen.
  - intros E cfg to_cells c0.
    apply (silent_no_event is_empty_table_message); [apply main_no_empty_table|reflexivity].
Qed.

Lemma create_dataframe_empty_input_witness :
  result (run (create_dataframe (Some [])) ∅) = Ret None
  /\ events (run (create_dataframe (Some [])) ∅) =
     [Print "📋 Creating DataFrame..."; Print "❌ No parks data to create DataFrame"].
Proof.
  apply (proj1 create_dataframe_empty_input (Some []) ∅). reflexivity.
Defined.

(** ** Responses that are not JSON objects *)

(** X14. The guard of [parse_parks_data] is written for objects.  On a
    truthy response that is a number or [true], the test
    ["data" not in api_response] itself raises [TypeError].  On an array or
    a string, the parser reports that no data was found unless ["data"] is
    one of the elements (is a substring), and in that case indexing by
    ["data"] raises [TypeError].  No other response than an object gets past
    the guard. *)
Theorem parse_parks_data_not_an_object :
  (forall (api_response : pyval) (c0 : cells),
     is_scalar api_response = true -> truthy api_response = true ->
     result (run (parse_parks_data api_response) c0) =
     Raise (mkExn TypeError
                  ("argument of type '" +:+ type_name api_response +:+ "' is not iterable")))
  /\ (forall (l : list pyval) (c0 : cells),
        In (PStr "data") l ->
        result (run (parse_parks_data (PList l)) c0) =
        Raise (mkExn TypeError "list indices must be integers or slices, not str"))
  /\ (forall (l : list pyval) (c0 : cells),
        ~ In (PStr "data") l ->
        result (run (parse_parks_data (PList l)) c0) = Ret None
        /\ last (events (run (parse_parks_data (PList l)) c0))
           = Some (Print "❌ No data found in API response"))
  /\ (forall (s : string) (c0 : cells),
        result (run (parse_parks_data (PStr s)) c0) =
        if is_substring "data" s
        then Raise (mkExn TypeError "string indices must be integers, not 'str'")
        else Ret None).
Proof.
  split; [|split; [|split]].
  - intros api_response c0 Hscalar Htruthy.
    unfold parse_parks_data. step_py. rewrite Htruthy. step_py.
    by destruct api_response.
  - intros l c0 Hin.
    assert (Hhas : existsb (fun v => match v with
                                     | PStr s => String.eqb s "data"
                                     | _ => false
                                     end) l = true).
    { apply existsb_exists. exists (PStr "data"). by split. }
    unfold parse_parks_data. step_py.
    destruct l as [|v l]; [destruct Hin|]. cbn [truthy negb py_contains]. step_py.
    rewrite Hhas. reflexivity.
  - intros l c0 Hnot.
    assert (Hhas : existsb (fun v => match v with
                                     | PStr s => String.eqb s "data"
                                     | _ => false
                                     end) l = false).
    { apply not_true_is_false. intros Hex. apply existsb_exists in Hex as (v & Hv & Hdata).
      destruct v; try discriminate Hdata. apply String.eqb_eq in Hdata as ->. by apply Hnot. }
    unfold parse_parks_data. step_py.
    destruct l as [|v l]; cbn [truthy negb py_contains]; step_py; [by split|].
    rewrite Hhas. by split.
  - intros s c0. unfold parse_parks_data. step_py.
    destruct s as [|c s]; [reflexivity|]. cbn [truthy negb py_contains]. step_py.
    by destruct (is_substring "data" (String c s)).
Qed.

Lemma parse_parks_data_not_an_object_witness :
  result (run (parse_parks_data (PList [PStr "total"; PStr "data"])) ∅) =
  Raise (mkExn TypeError "list indices must be integers or slices, not str").
Proof.
  apply (proj1 (proj2 parse_parks_data_not_an_object) [PStr "total"; PStr "data"] ∅).
  right. left. reflexivity.
Defined.
